(** * family_expenses: the Splitwise client, the dashboard transform and the
      Google Drive token bootstrap

    A shallow embedding of [src/splitwise_client.py] and [get_gdrive_token.py].

    Python values are an inductive type, dictionaries are association lists in
    insertion order (their keys pairwise distinct), a pandas table is its list
    of column names with its list of labelled rows.  The two pandas parsers
    ([pd.to_datetime] and [pd.to_numeric], both called with errors="coerce"),
    the Splitwise client, the file system, the OAuth library and the classes
    of the objects a table may hold are outside the repository: the code is
    modelled over any implementation of them, constrained only by the
    contract the code relies on. *)

From Stdlib Require Import List ZArith Lia Bool String Ascii DecimalString.
From Stdlib Require Import SpecFloat.
Import ListNotations.
Local Open Scope string_scope.
Local Open Scope Z_scope.

Set Implicit Arguments.

(* ================================================================== *)
(** * Python values *)
(* ================================================================== *)

(** [PObject] is an instance that has a [__dict__] (its instance attributes,
    in definition order); [POther] is any value that is neither a primitive,
    a list, a dict, nor an instance with a [__dict__] (a tuple, a set, an
    object with slots ...): the serialisation reads only its [str()].  What
    attribute lookup and truth tests do on these two kinds of object is
    decided by their classes, see [Objects] below. *)
Unset Elimination Schemes.
Inductive pyval : Type :=
| PNone
| PBool (b : bool)
| PInt (z : Z)
| PFloat (f : spec_float)
| PStr (s : string)
| PList (items : list pyval)
| PDict (entries : list (string * pyval))
| PObject (attrs : list (string * pyval))
| POther (repr : string).
Set Elimination Schemes.

Definition NaN : pyval := PFloat S754_nan.

(** Lookup in an association list (first binding wins). *)
Fixpoint assoc {A : Type} (k : string) (l : list (string * A)) : option A :=
  match l with
  | [] => None
  | (k', v) :: tl => if String.eqb k k' then Some v else assoc k tl
  end.

Definition keys {A : Type} (l : list (string * A)) : list string := map fst l.

(** Mapping a function over the values of a dictionary,
    [{k: f(v) for k, v in d.items()}]. *)
Definition map_values {A B : Type} (f : A -> B) (l : list (string * A))
  : list (string * B) :=
  map (fun kv => (fst kv, f (snd kv))) l.

(** An induction principle that reaches the values nested in lists and
    dictionaries. *)
Section pyval_induction.
Variable P : pyval -> Prop.
Hypothesis HNone : P PNone.
Hypothesis HBool : forall b, P (PBool b).
Hypothesis HInt : forall z, P (PInt z).
Hypothesis HFloat : forall f, P (PFloat f).
Hypothesis HStr : forall s, P (PStr s).
Hypothesis HList : forall l, Forall P l -> P (PList l).
Hypothesis HDict : forall d, Forall (fun kv => P (snd kv)) d -> P (PDict d).
Hypothesis HObject : forall d, Forall (fun kv => P (snd kv)) d -> P (PObject d).
Hypothesis HOther : forall r, P (POther r).

Fixpoint pyval_nested_ind (v : pyval) : P v :=
  let fix items (l : list pyval) : Forall P l :=
    match l with
    | [] => Forall_nil _
    | x :: tl => Forall_cons _ (pyval_nested_ind x) (items tl)
    end in
  let fix entries (d : list (string * pyval))
    : Forall (fun kv => P (snd kv)) d :=
    match d with
    | [] => Forall_nil _
    | kv :: tl => Forall_cons kv (pyval_nested_ind (snd kv)) (entries tl)
    end in
  match v with
  | PNone => HNone
  | PBool b => HBool b
  | PInt z => HInt z
  | PFloat f => HFloat f
  | PStr s => HStr s
  | PList l => HList (items l)
  | PDict d => HDict (entries d)
  | PObject d => HObject (entries d)
  | POther r => HOther r
  end.
End pyval_induction.

(* ================================================================== *)
(** * [_serialize_object] *)
(* ================================================================== *)

(** The branches are tested in the order of the source: [None], primitive,
    list, dict, instance with a [__dict__], and the [str()] fallback. *)
Fixpoint _serialize_object (obj : pyval) : pyval :=
  match obj with
  | PNone => PNone
  | PBool b => PBool b
  | PInt z => PInt z
  | PFloat f => PFloat f
  | PStr s => PStr s
  | PList items => PList (map _serialize_object items)
  | PDict entries =>
      PDict (map (fun kv => (fst kv, _serialize_object (snd kv))) entries)
  | PObject attrs =>
      PDict (map (fun kv => (fst kv, _serialize_object (snd kv))) attrs)
  | POther repr => PStr repr
  end.

(** A tree made of primitives ([None] is the null primitive), lists and
    dictionaries only. *)
Fixpoint json_friendly (v : pyval) : bool :=
  match v with
  | PNone | PBool _ | PInt _ | PFloat _ | PStr _ => true
  | PList items => forallb json_friendly items
  | PDict entries => forallb (fun kv => json_friendly (snd kv)) entries
  | PObject _ | POther _ => false
  end.

Definition is_primitive (v : pyval) : bool :=
  match v with
  | PNone | PBool _ | PInt _ | PFloat _ | PStr _ => true
  | _ => false
  end.


(* ================================================================== *)
(** * Output and exceptions *)
(* ================================================================== *)

(** The exceptions the modelled code can meet.  [sys.exit(n)] raises
    [SystemExit n]; [OSError] stands for the errors of [open] other than
    [FileNotFoundError] (permission denied, a directory, ...). *)
Inductive exn : Type :=
| SystemExit (code : Z)
| KeyError (key : string)
| TypeError
| AttributeError
| FileNotFoundError
| OSError (what : string)
| JSONDecodeError.

(** A run of a piece of Python code: the arguments of its [print] calls, in
    order, and either the exception that ended it or its value. *)
Definition M (A : Type) : Type := (list string * (exn + A))%type.

Definition ret {A} (a : A) : M A := ([], inr a).
Definition raise {A} (e : exn) : M A := ([], inl e).
Definition print (line : string) : M unit := ([line], inr tt).
Definition bind {A B} (m : M A) (f : A -> M B) : M B :=
  match snd m with
  | inl e => (fst m, inl e)
  | inr a => ((fst m ++ fst (f a))%list, snd (f a))
  end.
Definition sys_exit {A} (code : Z) : M A := raise (SystemExit code).

Definition stdout {A} (m : M A) : list string := fst m.
Definition outcome {A} (m : M A) : exn + A := snd m.

Declare Scope py_scope.
Delimit Scope py_scope with py.
Notation "x <- m ;; k" := (bind m (fun x => k))
  (at level 61, m at next level, right associativity) : py_scope.
Notation "m ;;; k" := (bind m (fun _ => k))
  (at level 61, right associativity) : py_scope.

(** [str(n)] of a non-negative integer. *)
Definition str_of_nat (n : nat) : string := NilEmpty.string_of_uint (Nat.to_uint n).

(* ================================================================== *)
(** * pandas tables *)
(* ================================================================== *)

(** A parsed date.  [time_ns] is the time of day in nanoseconds. *)
Record Timestamp : Type := mkTimestamp
  { year : Z; month : Z; day : Z; time_ns : Z }.

(** The result of [pd.to_numeric]: an [int64] or a [float64] value. *)
Inductive number : Type :=
| NInt (z : Z)
| NFloat (f : spec_float).

(** What a table cell holds: a Python object (raw tables hold nothing else),
    a parsed date, or the missing date [NaT]. *)
Inductive cell : Type :=
| CObj (v : pyval)
| CTime (t : Timestamp)
| CNaT.

Definition cell_of_number (x : number) : cell :=
  match x with
  | NInt z => CObj (PInt z)
  | NFloat f => CObj (PFloat f)
  end.

Definition cell_of_datetime (d : option Timestamp) : cell :=
  match d with
  | Some t => CTime t
  | None => CNaT
  end.

(** A row keeps its index label through every filter. *)
Record Row : Type := mkRow
  { label : nat; cells : list (string * cell) }.

Record DataFrame : Type := mkDataFrame
  { columns : list string; rows : list Row }.

(** The cell of a row under a column; a column the row says nothing about is
    missing there, which pandas stores as NaN. *)
Definition get (c : string) (r : Row) : cell :=
  match assoc c (cells r) with
  | Some v => v
  | None => CObj NaN
  end.

Fixpoint set_assoc {A} (k : string) (v : A) (l : list (string * A))
  : list (string * A) :=
  match l with
  | [] => [(k, v)]
  | (k', v') :: tl =>
      if String.eqb k k' then (k, v) :: tl else (k', v') :: set_assoc k v tl
  end.

Definition set_cell (c : string) (v : cell) (r : Row) : Row :=
  mkRow (label r) (set_assoc c v (cells r)).

Definition in_columns (c : string) (df : DataFrame) : bool :=
  existsb (String.eqb c) (columns df).

(** [df.empty]: one of the two axes has length zero. *)
Definition df_empty (df : DataFrame) : bool :=
  Nat.eqb (List.length (columns df)) 0%nat || Nat.eqb (List.length (rows df)) 0%nat.

(** [len(df)] *)
Definition len (df : DataFrame) : nat := List.length (rows df).

(** [df[c]] read as the list of its values (the column is known to exist). *)
Definition col (c : string) (df : DataFrame) : list cell := map (get c) (rows df).

(** [df[c]] where the column may be missing. *)
Definition getitem (c : string) (df : DataFrame) : M (list cell) :=
  if in_columns c df then ret (col c df) else raise (KeyError c).

(** [df[mask]]: the rows under a true entry of the mask. *)
Definition loc_mask (mask : list bool) (df : DataFrame) : DataFrame :=
  mkDataFrame (columns df)
    (map fst (filter (fun rm => snd rm) (combine (rows df) mask))).

(** [df[c] = values]: the column is replaced, or appended when new. *)
Definition set_column (c : string) (values : list cell) (df : DataFrame)
  : DataFrame :=
  mkDataFrame
    (if in_columns c df then columns df else (columns df ++ [c])%list)
    (map (fun rv => set_cell c (snd rv) (fst rv)) (combine (rows df) values)).

(** [df[cols]]: the projection on a list of columns. *)
Definition select (cols : list string) (df : DataFrame) : DataFrame :=
  mkDataFrame cols
    (map (fun r => mkRow (label r) (map (fun c => (c, get c r)) cols)) (rows df)).

(** [value == False] of Python, as the element-wise comparison applies it:
    [False], [0] and [0.0] compare equal to [False]; [None], NaN and every
    other object do not. *)
Definition py_eq_False (v : pyval) : bool :=
  match v with
  | PBool b => negb b
  | PInt z => Z.eqb z 0
  | PFloat f => SFeqb f (S754_zero false)
  | _ => false
  end.

Definition eq_False (c : cell) : bool :=
  match c with
  | CObj v => py_eq_False v
  | CTime _ | CNaT => false
  end.

(** [Series.isna()]: [None], NaN and NaT are missing. *)
Definition isna (c : cell) : bool :=
  match c with
  | CObj PNone => true
  | CObj (PFloat S754_nan) => true
  | CNaT => true
  | _ => false
  end.

(** The union of the keys of the records, in order of first appearance. *)
Fixpoint union_keys (seen : list string) (records : list (list (string * pyval)))
  : list string :=
  match records with
  | [] => seen
  | d :: tl =>
      union_keys
        (fold_left (fun acc k => if existsb (String.eqb k) acc then acc else (acc ++ [k])%list)
                   (keys d) seen)
        tl
  end.

Definition dict_entries (v : pyval) : list (string * pyval) :=
  match v with
  | PDict d => d
  | _ => []
  end.

(** [pd.DataFrame(dicts)] for a list of dictionaries, each given by its
    entries: one row per dictionary, labelled 0, 1, 2, ...; a key a
    dictionary lacks gives NaN. *)
Definition pd_DataFrame (dicts : list (list (string * pyval))) : DataFrame :=
  let cols := union_keys [] dicts in
  mkDataFrame cols
    (map (fun nd =>
            mkRow (fst nd)
              (map (fun c => (c, match assoc c (snd nd) with
                                 | Some v => CObj v
                                 | None => CObj NaN
                                 end)) cols))
         (combine (seq 0%nat (List.length dicts)) dicts)).

(** The part of pandas the transform calls with errors="coerce": both
    parsers take a column and return a column of the same length, with NaT,
    respectively NaN, where a value does not parse. *)
Record Pandas : Type := mkPandas
  { to_datetime : list cell -> list (option Timestamp);
    to_numeric : list cell -> list number;
    to_datetime_length : forall l, List.length (to_datetime l) = List.length l;
    to_numeric_length : forall l, List.length (to_numeric l) = List.length l }.

(** The [.dt] accessor: an error unless every value is a date or NaT. *)
Definition as_datetime (c : cell) : option (option Timestamp) :=
  match c with
  | CTime t => Some (Some t)
  | CNaT => Some None
  | CObj _ => None
  end.

Fixpoint all_datetimes (values : list cell) : option (list (option Timestamp)) :=
  match values with
  | [] => Some []
  | c :: tl =>
      match as_datetime c, all_datetimes tl with
      | Some d, Some ds => Some (d :: ds)
      | _, _ => None
      end
  end.

Definition dt (values : list cell) : M (list (option Timestamp)) :=
  match all_datetimes values with
  | Some ds => ret ds
  | None => raise AttributeError
  end.

(** [.dt.to_period("M").dt.to_timestamp()]: the first instant of the month. *)
Definition month_start (t : Timestamp) : Timestamp :=
  mkTimestamp (year t) (month t) 1 0.

Definition digit (n : Z) : ascii := ascii_of_nat (48 + Z.to_nat (n mod 10))%nat.

(** [strftime("%Y-%m")]: the year on four digits, the month on two. *)
Definition strftime_Y_m (t : Timestamp) : string :=
  String (digit (year t / 1000))
    (String (digit (year t / 100))
      (String (digit (year t / 10))
        (String (digit (year t))
          (String "-"%char
            (String (digit (month t / 10))
              (String (digit (month t)) EmptyString)))))).

Definition to_month_start (d : option Timestamp) : cell :=
  cell_of_datetime (option_map month_start d).

Definition strftime_cell (d : option Timestamp) : cell :=
  match d with
  | Some t => CObj (PStr (strftime_Y_m t))
  | None => CObj NaN
  end.

(* ================================================================== *)
(** * [_extract_category_name] *)
(* ================================================================== *)

(** ** The objects the repository does not define

    What [getattr] and [bool] do on an instance, and on any other object
    that is no primitive, list or dict, is decided by the class of the
    object: instance attributes, slots, the fields of a named tuple,
    properties, [__getattr__], [__bool__], [__len__].  The function is
    modelled over every such behaviour.  A call into the object returns a
    value or raises; the exceptions recorded are those derived from
    [Exception], which are the ones [except Exception] catches (an object
    whose attribute access leaves the interpreter through [SystemExit] or
    [KeyboardInterrupt] is outside the model). *)
Inductive raised : Type :=
| NoSuchAttribute
| OtherException (what : string).

(** [lookup_name obj] is [obj.name], with [NoSuchAttribute] for the
    [AttributeError] of an object that has none; [truth_value obj] is
    [bool(obj)]. *)
Record Objects : Type := mkObjects
  { lookup_name : pyval -> raised + pyval;
    truth_value : pyval -> raised + bool }.

(** Truth value of a Python object, as [or] tests it. *)
Definition py_truthy (py : Objects) (v : pyval) : raised + bool :=
  match v with
  | PNone => inr false
  | PBool b => inr b
  | PInt z => inr (negb (Z.eqb z 0))
  | PFloat f => inr (negb (SFeqb f (S754_zero false)))
  | PStr s => inr (negb (String.eqb s ""))
  | PList items => inr (negb (Nat.eqb (List.length items) 0))
  | PDict entries => inr (negb (Nat.eqb (List.length entries) 0))
  | PObject _ | POther _ => truth_value py v
  end.

(** [getattr(obj, "name", None)]: the default stands in for an
    [AttributeError] only; None, a bool, a number, a string, a list and a
    dict have no attribute called [name]. *)
Definition getattr_or_None (py : Objects) (obj : pyval) : raised + pyval :=
  match obj with
  | PObject _ | POther _ =>
      match lookup_name py obj with
      | inl NoSuchAttribute => inr PNone
      | found_or_raised => found_or_raised
      end
  | _ => inr PNone
  end.

Definition isinstance_dict (v : pyval) : bool :=
  match v with
  | PDict _ => true
  | _ => false
  end.

(** [d.get(key)] *)
Definition dict_get (d : pyval) (key : string) : pyval :=
  match assoc key (dict_entries d) with
  | Some v => v
  | None => PNone
  end.

(** [a or b]: [b] when [a] is falsy, without a test of [b]; the right
    operand of the source cannot raise. *)
Definition py_or (py : Objects) (a b : pyval) : raised + pyval :=
  match py_truthy py a with
  | inl e => inl e
  | inr true => inr a
  | inr false => inr b
  end.

(** The body of the [try]. *)
Definition extract_category_name_body (py : Objects) (category : pyval)
  : raised + pyval :=
  match getattr_or_None py category with
  | inl e => inl e
  | inr name =>
      py_or py name
        (if isinstance_dict category then dict_get category "name" else PNone)
  end.

(** [try: return body / except Exception: return None] *)
Definition _extract_category_name (py : Objects) (category : pyval) : pyval :=
  match extract_category_name_body py category with
  | inr name => name
  | inl _ => PNone
  end.

(** The values that are neither a mapping nor an object with a class of its
    own: None, booleans, numbers, strings and lists. *)
Definition has_no_name_shape (v : pyval) : bool :=
  match v with
  | PDict _ | PObject _ | POther _ => false
  | _ => true
  end.

(** The objects whose class is not the business of [pyval]. *)
Definition is_foreign (v : pyval) : bool :=
  match v with
  | PObject _ | POther _ => true
  | _ => false
  end.

(** [_extract_category_name] applied to a cell of the category column; a
    date or NaT there has no [name] attribute and is no dict. *)
Definition category_name_cell (py : Objects) (c : cell) : cell :=
  match c with
  | CObj v => CObj (_extract_category_name py v)
  | CTime _ | CNaT => CObj PNone
  end.

(* ================================================================== *)
(** * [process_for_dashboard] *)
(* ================================================================== *)

Definition filtered_message (total kept : nat) : string :=
  "Filtered: " ++ str_of_nat total ++ " records → " ++ str_of_nat kept
  ++ " expenses (excluded " ++ str_of_nat (total - kept) ++ " payments)".

(** [df[df["payment"] == False]] *)
Definition expenses_only (df : DataFrame) : DataFrame :=
  loc_mask (map eq_False (col "payment" df)) df.

(** Filter out payments (settlements). *)
Definition filter_payments (df : DataFrame) : M DataFrame :=
  if in_columns "payment" df then
    (print (filtered_message (len df) (len (expenses_only df))) ;;;
     ret (expenses_only df))%py
  else ret df.

(** Parse dates. *)
Definition parse_dates (pd : Pandas) (df : DataFrame) : DataFrame :=
  if in_columns "date" df then
    let df :=
      set_column "date" (map cell_of_datetime (to_datetime pd (col "date" df))) df in
    loc_mask (map (fun c => negb (isna c)) (col "date" df)) df
  else df.

(** Parse costs. *)
Definition parse_costs (pd : Pandas) (df : DataFrame) : DataFrame :=
  if in_columns "cost" df then
    let df :=
      set_column "cost" (map cell_of_number (to_numeric pd (col "cost" df))) df in
    loc_mask (map (fun c => negb (isna c)) (col "cost" df)) df
  else df.

(** Extract category name. *)
Definition extract_categories (py : Objects) (df : DataFrame) : DataFrame :=
  if in_columns "category" df then
    set_column "category_name" (map (category_name_cell py) (col "category" df)) df
  else df.

(** Select relevant columns for dashboard. *)
Definition wanted_cols (df : DataFrame) : list string :=
  filter (fun c => in_columns c df)
    ["id"; "description"; "cost"; "currency_code"; "date"; "category_name"].

Definition select_wanted (df : DataFrame) : DataFrame :=
  select (wanted_cols df) df.

(** Add month columns: both derivations read their source column without
    testing that it is there. *)
Definition add_month_columns (df : DataFrame) : M DataFrame :=
  (date <- getitem "date" df ;;
   d <- dt date ;;
   let df := set_column "month" (map to_month_start d) df in
   month <- getitem "month" df ;;
   m <- dt month ;;
   ret (set_column "month_str" (map strftime_cell m) df))%py.

Definition process_for_dashboard (py : Objects) (pd : Pandas) (raw_df : DataFrame)
  : M DataFrame :=
  if df_empty raw_df then ret raw_df
  else
    (df <- filter_payments raw_df ;;
     let df := parse_dates pd df in
     let df := parse_costs pd df in
     let df := extract_categories py df in
     let df := select_wanted df in
     add_month_columns df)%py.

(** ** The intermediate tables of the transform, named for the statements *)

(** The table after the payment filter. *)
Definition after_filter (df : DataFrame) : DataFrame :=
  if in_columns "payment" df then expenses_only df else df.

(** The table the month columns are derived from. *)
Definition prepared (py : Objects) (pd : Pandas) (raw_df : DataFrame) : DataFrame :=
  select_wanted
    (extract_categories py (parse_costs pd (parse_dates pd (after_filter raw_df)))).

(** The date a cell holds, if it holds one. *)
Definition date_of (c : cell) : option Timestamp :=
  match c with
  | CTime t => Some t
  | _ => None
  end.

(** What the last step does to one row. *)
Definition with_month_columns (r : Row) : Row :=
  let d := date_of (get "date" r) in
  set_cell "month_str" (strftime_cell (option_map month_start d))
    (set_cell "month" (to_month_start d) r).

(* ================================================================== *)
(** * [get_raw_expenses] *)
(* ================================================================== *)

(** The keyword arguments of one [client.getExpenses] call. *)
Record request : Type := mkRequest
  { limit : Z; offset : Z; visible : bool; group_id : option string }.

Definition BATCH_SIZE : Z := 100.

(** [params]: [group_id] is passed only when the configured one is not the
    empty string. *)
Definition params_group (config_group_id : string) : option string :=
  if String.eqb config_group_id "" then None else Some config_group_id.

(** An [Expense] instance of the Splitwise library, given by its
    [__dict__]. *)
Definition Expense : Type := list (string * pyval).

Section Fetch.
(** The state of the remote service and of the client library, and the
    call that lists one page of expenses. *)
Variable Conn : Type.
Variable getExpenses : Conn -> request -> list Expense * Conn.
Variable config_group_id : string.

(** The [while True] loop.  [fuel] bounds the number of requests; [None]
    means the loop is still running when the fuel is spent. *)
Fixpoint fetch_loop (fuel : nat) (c : Conn) (offset : Z)
    (all_expenses : list Expense) (log : list request)
  : option (list Expense * list request * Conn) :=
  match fuel with
  | O => None
  | S fuel' =>
      let req := mkRequest BATCH_SIZE offset true (params_group config_group_id) in
      match getExpenses c req with
      | ([], c') => Some (all_expenses, (log ++ [req])%list, c')
      | (batch, c') =>
          fetch_loop fuel' c' (offset + BATCH_SIZE)
            (all_expenses ++ batch)%list (log ++ [req])%list
      end
  end.

(** The table returned, with the requests issued and the final state of
    the service.  Every record is an instance, so its serialisation is a
    dictionary, whose entries make the row.  The progress messages are not
    modelled. *)
Definition get_raw_expenses (fuel : nat) (client : Conn)
  : option (DataFrame * list request * Conn) :=
  match fetch_loop fuel client 0 [] [] with
  | None => None
  | Some (all_expenses, log, c') =>
      let dicts := map (fun obj => _serialize_object (PObject obj)) all_expenses in
      Some (pd_DataFrame (map dict_entries dicts), log, c')
  end.

(** The row of one record: the entries of its serialisation. *)
Definition serialized_record (obj : Expense) : list (string * pyval) :=
  dict_entries (_serialize_object (PObject obj)).

(** The request the loop sends at its [k]-th iteration (counted from 0). *)
Definition request_at (k : nat) : request :=
  mkRequest BATCH_SIZE (BATCH_SIZE * Z.of_nat k) true (params_group config_group_id).

(** The service seen from a loop that asks for page after page: its state
    before the [k]-th request and the page that request returns. *)
Fixpoint conn_before (k : nat) (c : Conn) : Conn :=
  match k with
  | O => c
  | S k' => snd (getExpenses (conn_before k' c) (request_at k'))
  end.

Definition page (k : nat) (c : Conn) : list Expense :=
  fst (getExpenses (conn_before k c) (request_at k)).
End Fetch.

(* ================================================================== *)
(** * [get_gdrive_token.py] *)
(* ================================================================== *)

Definition nl : string := String (ascii_of_nat 10) EmptyString.

(** [key in container] for a string key: a key of a dict, an element of a
    list, a substring of a string; any other value is not iterable. *)
Definition py_contains (key : string) (container : pyval) : M bool :=
  match container with
  | PDict entries => ret (existsb (String.eqb key) (keys entries))
  | PList items =>
      ret (existsb (fun v => match v with
                             | PStr s => String.eqb s key
                             | _ => false
                             end) items)
  | PStr s => ret (match index 0 key s with Some _ => true | None => false end)
  | _ => raise TypeError
  end.

(** [container[key]] for a string key. *)
Definition py_getitem (container : pyval) (key : string) : M pyval :=
  match container with
  | PDict entries =>
      match assoc key entries with
      | Some v => ret v
      | None => raise (KeyError key)
      end
  | _ => raise TypeError
  end.

Section Bootstrap.
(** What [open(path)] followed by [json.load] gives for each path: the
    exception raised, or the value parsed. *)
Variable load_json : string -> exn + pyval.
(** Lines 50 to 74: the client details are printed and the browser flow is
    run by the OAuth library. *)
Variable authorize : string -> pyval -> M unit.

Definition not_found_help (credentials_file : string) : M unit :=
  (print ("Error: Could not find credentials file: " ++ credentials_file) ;;;
   print (nl ++ "Please download the OAuth credentials JSON from Google Cloud Console:") ;;;
   print "1. Go to https://console.cloud.google.com/" ;;;
   print "2. Select your project" ;;;
   print "3. Go to APIs & Services → Credentials" ;;;
   print "4. Click on your OAuth 2.0 Client ID" ;;;
   print "5. Click 'Download JSON'")%py.

Definition get_refresh_token (credentials_file : string) : M unit :=
  (print (nl ++ "=== Google Drive OAuth Setup ===" ++ nl) ;;;
   creds_data <-
     match load_json credentials_file with
     | inr v => ret v
     | inl FileNotFoundError =>
         not_found_help credentials_file ;;; sys_exit 1
     | inl e => raise e
     end ;;
   has_installed <- py_contains "installed" creds_data ;;
   client_info <-
     (if has_installed then py_getitem creds_data "installed"
      else
        has_web <- py_contains "web" creds_data ;;
        if has_web then py_getitem creds_data "web"
        else print "Error: Invalid credentials file format" ;;; sys_exit 1) ;;
   authorize credentials_file client_info)%py.

(** The [__main__] block; [argv] is [sys.argv], the script name first. *)
Definition main (argv : list string) : M unit :=
  if negb (Nat.eqb (List.length argv) 2) then
    (print "Usage: python get_gdrive_token.py <path-to-credentials.json>" ;;;
     print (nl ++ "Example: python get_gdrive_token.py ~/Downloads/client_secret_123.json") ;;;
     sys_exit 1)%py
  else get_refresh_token (nth 1 argv "").
End Bootstrap.

(** The exit status the interpreter gives the process: the code of
    [SystemExit], 1 (after a traceback on the error stream) for any other
    exception that nothing caught, 0 when the script runs to its end. *)
Definition exit_status {A} (m : M A) : Z :=
  match outcome m with
  | inl (SystemExit code) => code
  | inl _ => 1
  | inr _ => 0
  end.

(** The run ends in [sys.exit(code)], having printed [line]. *)
Definition exits_with_message {A} (code : Z) (line : string) (m : M A) : Prop :=
  outcome m = inl (SystemExit code) /\ In line (stdout m).

(** The lines by which the script itself reports a failure. *)
Definition reports_failure {A} (m : M A) : bool :=
  existsb (fun line => orb (prefix "Error: " line) (prefix "Usage: " line)) (stdout m).

(* ================================================================== *)
(** * Reference collaborators, to run the code on concrete inputs *)
(* ================================================================== *)

Definition digit_value (c : ascii) : option Z :=
  let n := Z.of_nat (nat_of_ascii c) in
  if (48 <=? n) && (n <=? 57) then Some (n - 48) else None.

(** The value of a string of decimal digits, read after the prefix [acc]. *)
Fixpoint digits_value (acc : Z) (s : string) : option Z :=
  match s with
  | EmptyString => Some acc
  | String c tl =>
      match digit_value c with
      | Some d => digits_value (10 * acc + d) tl
      | None => None
      end
  end.

Definition parse_decimal (s : string) : option Z :=
  match s with
  | EmptyString => None
  | _ => digits_value 0 s
  end.

Definition is_leap (y : Z) : bool :=
  ((y mod 4 =? 0) && negb (y mod 100 =? 0)) || (y mod 400 =? 0).

Definition days_in_month (y m : Z) : Z :=
  if m =? 2 then (if is_leap y then 29 else 28)
  else if (m =? 4) || (m =? 6) || (m =? 9) || (m =? 11) then 30
  else 31.

(** Calendar dates written YYYY-MM-DD. *)
Definition parse_iso_date (s : string) : option Timestamp :=
  match parse_decimal (substring 0 4 s),
        parse_decimal (substring 5 2 s),
        parse_decimal (substring 8 2 s) with
  | Some y, Some m, Some d =>
      if Nat.eqb (String.length s) 10
         && String.eqb (substring 4 1 s) "-"
         && String.eqb (substring 7 1 s) "-"
         && (1 <=? m) && (m <=? 12) && (1 <=? d) && (d <=? days_in_month y m)
      then Some (mkTimestamp y m d 0)
      else None
  | _, _, _ => None
  end.

Definition ref_datetime (c : cell) : option Timestamp :=
  match c with
  | CTime t => Some t
  | CObj (PStr s) => parse_iso_date s
  | _ => None
  end.

Definition ref_number (c : cell) : number :=
  match c with
  | CObj (PInt z) => NInt z
  | CObj (PFloat f) => NFloat f
  | CObj (PStr s) =>
      match parse_decimal s with
      | Some z => NInt z
      | None => NFloat S754_nan
      end
  | _ => NFloat S754_nan
  end.

(** A small instance of the parsing contract: ISO calendar dates and
    unsigned decimal integers parse, nothing else does. *)
Definition pandas_reference : Pandas :=
  mkPandas (map ref_datetime) (map ref_number)
    (fun l => length_map ref_datetime l) (fun l => length_map ref_number l).

(** Plain classes: an instance exposes the entries of its [__dict__], every
    other object has no [name], and all of them are truthy. *)
Definition plain_objects : Objects :=
  mkObjects
    (fun obj =>
       match obj with
       | PObject attrs =>
           match assoc "name" attrs with
           | Some v => inr v
           | None => inl NoSuchAttribute
           end
       | _ => inl NoSuchAttribute
       end)
    (fun _ => inr true).

(** Classes with a protocol of their own: a named tuple exposes its [name]
    field, an instance of a class with a failing [name] property raises, the
    empty tuple is falsy, and the truth test of the object written
    [<Unsure>] raises. *)
Definition classy_objects : Objects :=
  mkObjects
    (fun obj =>
       match obj with
       | PObject attrs =>
           match assoc "_broken" attrs, assoc "name" attrs with
           | Some _, _ => inl (OtherException "RuntimeError")
           | None, Some v => inr v
           | None, None => inl NoSuchAttribute
           end
       | POther repr =>
           if String.eqb repr "Category(name='Food')" then inr (PStr "Food")
           else if String.eqb repr "Holder(name=<Unsure>)" then inr (POther "<Unsure>")
           else if String.eqb repr "Holder(name=())" then inr (POther "()")
           else inl NoSuchAttribute
       | _ => inl NoSuchAttribute
       end)
    (fun obj =>
       match obj with
       | POther repr =>
           if String.eqb repr "()" then inr false
           else if String.eqb repr "<Unsure>" then inl (OtherException "ValueError")
           else inr true
       | _ => inr true
       end).

(** A fake paginated source that hands out the pages of a queue, one per
    request, and empty pages once the queue is exhausted. *)
Definition queue_getExpenses (c : list (list Expense)) (req : request)
  : list Expense * list (list Expense) :=
  match c with
  | [] => ([], [])
  | p :: tl => (p, tl)
  end.

(** A fake source that serves slices of a fixed list of records. *)
Definition slice_getExpenses (c : list Expense) (req : request)
  : list Expense * list Expense :=
  (firstn (Z.to_nat (limit req)) (skipn (Z.to_nat (offset req)) c), c).

Definition expense_numbered (n : nat) : Expense :=
  [("id", PInt (Z.of_nat n)); ("payment", PBool false);
   ("category", PObject [("id", PInt 12); ("name", PStr "Food")])].

Definition fake_pages : list (list Expense) :=
  [map expense_numbered (seq 0 100); map expense_numbered (seq 100 100);
   map expense_numbered (seq 200 37); []].

(** ** Example tables *)

Definition food : pyval := PDict [("name", PStr "Food")].

(** The two records of the payment-filter test. *)
Definition two_records : DataFrame :=
  pd_DataFrame
    [[("payment", PBool false); ("cost", PInt 10);
            ("date", PStr "2024-01-05"); ("category", food)];
     [("payment", PBool true); ("cost", PInt 10);
            ("date", PStr "2024-01-05"); ("category", food)]].

(** One record whose category is a named tuple, [Category(name='Food')]. *)
Definition tuple_record : DataFrame :=
  pd_DataFrame
    [[("id", PInt 7); ("payment", PBool false); ("cost", PInt 10);
            ("date", PStr "2024-01-05");
            ("category", POther "Category(name='Food')")]].

(** A table that is not empty and has no date column. *)
Definition table_without_date : DataFrame :=
  pd_DataFrame [[("payment", PBool false); ("cost", PInt 10)]].


(** A good record (label 0) among records with a cost or a date that does
    not parse, with a flag that is None, missing or True. *)
Definition mixed_records : DataFrame :=
  pd_DataFrame
    [[("payment", PBool false); ("cost", PStr "12");
            ("date", PStr "2024-03-17"); ("category", food)];
     [("payment", PBool false); ("cost", PStr "abc");
            ("date", PStr "2024-03-17"); ("category", food)];
     [("payment", PBool false); ("cost", PInt 10);
            ("date", PStr "not-a-date"); ("category", food)];
     [("payment", PNone); ("cost", PInt 10);
            ("date", PStr "2024-03-17"); ("category", food)];
     [("cost", PInt 10); ("date", PStr "2024-03-17"); ("category", food)];
     [("payment", PBool true); ("cost", PInt 10);
            ("date", PStr "2024-03-17"); ("category", food)]].

(** ** The payment filter as the specification words it *)




(* ================================================================== *)
(** * [config.py] and [get_client] *)
(* ================================================================== *)

(** The process environment after [load_dotenv()]. *)
Definition Env : Type := string -> option string.

(** [os.getenv(key, default)] *)
Definition getenv_default (env : Env) (key default : string) : string :=
  match env key with
  | Some v => v
  | None => default
  end.

(** Truth value of a [str | None] field: [None] and the empty string are
    false. *)
Definition field_truthy (field : option string) : bool :=
  match field with
  | Some s => negb (String.eqb s "")
  | None => false
  end.

(** A field that is set to a string other than the empty one. *)
Definition is_set (field : option string) : Prop :=
  exists v, field = Some v /\ v <> "".

Module config.

Record AppConfig : Type := mkAppConfig
  { title : string }.

Record SplitwiseConfig : Type := mkSplitwiseConfig
  { api_key : string; group_id : string }.

Record GoogleDriveConfig : Type := mkGoogleDriveConfig
  { client_id : option string;
    client_secret : option string;
    refresh_token : option string;
    folder_id : option string }.

Record EmailConfig : Type := mkEmailConfig
  { gmail_address : option string;
    gmail_app_password : option string;
    recipient_email : option string }.

(** [GoogleDriveConfig.is_configured]: [all([...])] of the four fields. *)
Definition gdrive_is_configured (c : GoogleDriveConfig) : bool :=
  forallb field_truthy
    [client_id c; client_secret c; refresh_token c; folder_id c].

(** [EmailConfig.is_configured]: [all([...])] of the three fields. *)
Definition email_is_configured (c : EmailConfig) : bool :=
  forallb field_truthy
    [gmail_address c; gmail_app_password c; recipient_email c].

(** The globals of the module. *)
Record globals : Type := mkGlobals
  { app : AppConfig;
    splitwise : SplitwiseConfig;
    gdrive : GoogleDriveConfig;
    email : EmailConfig }.

(** Load configurations from environment. *)
Definition load (env : Env) : globals :=
  mkGlobals
    (mkAppConfig (getenv_default env "DASHBOARD_TITLE" "Family Expenses"))
    (mkSplitwiseConfig (getenv_default env "api_key" "")
                       (getenv_default env "group_id" ""))
    (mkGoogleDriveConfig (env "GDRIVE_CLIENT_ID") (env "GDRIVE_CLIENT_SECRET")
                         (env "GDRIVE_REFRESH_TOKEN") (env "GDRIVE_FOLDER_ID"))
    (mkEmailConfig (env "GMAIL_ADDRESS") (env "GMAIL_APP_PASSWORD")
                   (env "RECIPIENT_EMAIL")).

(** [set_recipient_email(value)]: the global [email] is rebound to a copy
    with the new recipient. *)
Definition set_recipient_email (value : string) (g : globals) : globals :=
  mkGlobals (app g) (splitwise g) (gdrive g)
    (mkEmailConfig (gmail_address (email g)) (gmail_app_password (email g))
                   (Some value)).

End config.

(** The arguments the [Splitwise] client is built with. *)
Record Splitwise : Type := mkSplitwise
  { consumer_key : string; consumer_secret : string; client_api_key : string }.

Inductive config_error : Type :=
| ValueError (message : string).

(** [get_client]: the lines printed, and the error raised or the client. *)
Definition get_client (cfg : config.SplitwiseConfig)
  : list string * (config_error + Splitwise) :=
  if String.eqb (config.api_key cfg) "" then
    ([], inl (ValueError "Missing api_key environment variable"))
  else
    (["Connecting to Splitwise with API key: "
      ++ substring 0 8 (config.api_key cfg) ++ "..."],
     inr (mkSplitwise "" "" (config.api_key cfg))).

(** A source that ignores the offset and serves the head of its records at
    every request. *)
Definition stuck_getExpenses (c : list Expense) (req : request)
  : list Expense * list Expense :=
  (firstn (Z.to_nat (limit req)) c, c).

(** [l1] is [l2] with some elements left out, the others in their order. *)
Inductive subseq {A : Type} : list A -> list A -> Prop :=
| subseq_nil : subseq [] []
| subseq_skip : forall x l1 l2, subseq l1 l2 -> subseq l1 (x :: l2)
| subseq_keep : forall x l1 l2, subseq l1 l2 -> subseq (x :: l1) (x :: l2).

(** The columns the dashboard may show, in their order. *)
Definition dashboard_columns : list string :=
  ["id"; "description"; "cost"; "currency_code"; "date"; "category_name"].

(* ================================================================== *)
(** * [get_refresh_token], lines 50 to 74 *)
(* ================================================================== *)

(** Scope for uploading files to Google Drive. *)
Definition SCOPES : list string := ["https://www.googleapis.com/auth/drive.file"].

(** [char * n] *)
Fixpoint str_times (c : ascii) (n : nat) : string :=
  match n with
  | O => EmptyString
  | S n' => String c (str_times c n')
  end.

(** [value[:50]]: the first 50 characters of a string, the first 50 items
    of a list; numbers, booleans and None cannot be sliced.  A dictionary
    cannot either (a TypeError up to Python 3.11, where a slice is not
    hashable); the properties below only slice strings. *)
Definition py_slice_50 (v : pyval) : M pyval :=
  match v with
  | PStr s => ret (PStr (substring 0 50 s))
  | PList items => ret (PList (firstn 50 items))
  | _ => raise TypeError
  end.

(** [d.get(key, default)] *)
Definition py_get_default (d : pyval) (key : string) (default : pyval) : M pyval :=
  match d with
  | PDict entries =>
      ret (match assoc key entries with
           | Some v => v
           | None => default
           end)
  | _ => raise AttributeError
  end.

Section Authorize.
(** [str()] as the f-strings apply it. *)
Variable py_str : pyval -> string.
(** [InstalledAppFlow.from_client_secrets_file(path, scopes)] followed by
    [run_local_server(port)]: the exception raised, or the refresh token of
    the credentials obtained. *)
Variable run_flow : string -> list string -> Z -> exn + pyval.

Definition rule : string := str_times "="%char 60.

Definition authorize_and_report (credentials_file : string) (client_info : pyval)
  : M unit :=
  (client_id <- py_getitem client_info "client_id" ;;
   shown <- py_slice_50 client_id ;;
   print ("Client ID: " ++ py_str shown ++ "...") ;;;
   project <- py_get_default client_info "project_id" (PStr "N/A") ;;
   print ("Project: " ++ py_str project) ;;;
   print (nl ++ "Starting authorization flow...") ;;;
   print ("A browser window will open for you to authorize access." ++ nl) ;;;
   refresh_token <-
     match run_flow credentials_file SCOPES 8080 with
     | inl e => raise e
     | inr token => ret token
     end ;;
   print (nl ++ rule) ;;;
   print "SUCCESS! Authorization complete." ;;;
   print rule ;;;
   print (nl ++ "📋 Add these to your GitHub Secrets:" ++ nl) ;;;
   client_id <- py_getitem client_info "client_id" ;;
   print ("GDRIVE_CLIENT_ID:" ++ nl ++ py_str client_id ++ nl) ;;;
   client_secret <- py_getitem client_info "client_secret" ;;
   print ("GDRIVE_CLIENT_SECRET:" ++ nl ++ py_str client_secret ++ nl) ;;;
   print ("GDRIVE_REFRESH_TOKEN:" ++ nl ++ py_str refresh_token ++ nl) ;;;
   print rule ;;;
   print (nl ++ "GitHub Secrets setup:") ;;;
   print "1. Go to your repository on GitHub" ;;;
   print "2. Settings → Secrets and variables → Actions" ;;;
   print "3. Add the three secrets above" ;;;
   print "4. You can delete the old GDRIVE_SERVICE_ACCOUNT_KEY secret" ;;;
   print rule)%py.
End Authorize.

(** The lines in which the script prints what the operator has to copy. *)
Definition banner : string := nl ++ "=== Google Drive OAuth Setup ===" ++ nl.

(** The lines printed before the browser flow is started, for a block whose
    client id is the string [cid]. *)
Definition intro_lines (py_str : pyval -> string) (cid : string) (project : pyval)
  : list string :=
  ["Client ID: " ++ py_str (PStr (substring 0 50 cid)) ++ "...";
   "Project: " ++ py_str project;
   nl ++ "Starting authorization flow...";
   "A browser window will open for you to authorize access." ++ nl].

(** The lines printed once the flow has returned, up to the client id. *)
Definition success_lines (py_str : pyval -> string) (cid : string) : list string :=
  [nl ++ rule; "SUCCESS! Authorization complete."; rule;
   nl ++ "📋 Add these to your GitHub Secrets:" ++ nl;
   "GDRIVE_CLIENT_ID:" ++ nl ++ py_str (PStr cid) ++ nl].

(** The closing instructions. *)
Definition setup_lines : list string :=
  [rule; nl ++ "GitHub Secrets setup:"; "1. Go to your repository on GitHub";
   "2. Settings → Secrets and variables → Actions";
   "3. Add the three secrets above";
   "4. You can delete the old GDRIVE_SERVICE_ACCOUNT_KEY secret"; rule].

(** The two lines that show the client secret and the refresh token. *)
Definition secret_lines (py_str : pyval -> string) (secret token : pyval)
  : list string :=
  ["GDRIVE_CLIENT_SECRET:" ++ nl ++ py_str secret ++ nl;
   "GDRIVE_REFRESH_TOKEN:" ++ nl ++ py_str token ++ nl].

(** The value of [client_info.get('project_id', 'N/A')]. *)
Definition project_of (entries : list (string * pyval)) : pyval :=
  match assoc "project_id" entries with
  | Some v => v
  | None => PStr "N/A"
  end.

(** The block of a credentials object that the script goes on with: the one
    under installed, else the one under web (lines 42-45). *)
Definition client_block (creds : list (string * pyval)) : option pyval :=
  match assoc "installed" creds with
  | Some block => Some block
  | None => assoc "web" creds
  end.

(** [str()] of a string, the only case the examples need. *)
Definition str_of_PStr (v : pyval) : string :=
  match v with
  | PStr s => s
  | _ => "?"
  end.

(* ================================================================== *)
(** * Properties of the serialisation *)
(* ================================================================== *)

Lemma serialize_primitive v : is_primitive v = true -> _serialize_object v = v.
Proof. destruct v; simpl; congruence. Qed.

Lemma keys_map_values {A B} (f : A -> B) l : keys (map_values f l) = keys l.
Proof.
  unfold keys, map_values. rewrite map_map. apply map_ext. reflexivity.
Qed.

Lemma forallb_map_true {A B} (f : A -> B) (p : B -> bool) l :
  Forall (fun x => p (f x) = true) l -> forallb p (map f l) = true.
Proof.
  induction 1 as [|x tl Hx _ IH]; simpl; [reflexivity|].
  now rewrite Hx, IH.
Qed.

Lemma serialize_json_friendly v : json_friendly (_serialize_object v) = true.
Proof.
  induction v using pyval_nested_ind; simpl; try reflexivity.
  - now apply forallb_map_true.
  - now apply forallb_map_true.
  - now apply forallb_map_true.
Qed.

(** Serialising a plain tree changes nothing. *)
Lemma serialize_fixes_json_friendly v :
  json_friendly v = true -> _serialize_object v = v.
Proof.
  induction v using pyval_nested_ind; simpl; try reflexivity; try discriminate.
  - intros Hl. f_equal. rewrite forallb_forall in Hl.
    rewrite Forall_forall in H.
    rewrite <- (map_id l) at 2. apply map_ext_in. auto.
  - intros Hd. f_equal. rewrite forallb_forall in Hd.
    rewrite Forall_forall in H.
    rewrite <- (map_id d) at 2. apply map_ext_in.
    intros [k x] Hin. simpl. f_equal. apply (H _ Hin). apply (Hd _ Hin).
Qed.

(** C3: [_serialize_object] is a total function whose result, for every
    value built from primitives, [None], lists, dictionaries, instances
    with attributes and other objects, is a tree of primitives, lists and
    dictionaries only.  Primitives and [None] are returned unchanged, a list
    is serialised element by element, a dictionary value by value under the
    same keys, an instance becomes the dictionary of its serialised
    attributes, and anything else becomes its string. *)
Theorem serialize_object_total_and_plain :
  (forall v, json_friendly (_serialize_object v) = true)
  /\ (forall v, is_primitive v = true -> _serialize_object v = v)
  /\ (forall items,
        _serialize_object (PList items) = PList (map _serialize_object items))
  /\ (forall entries,
        _serialize_object (PDict entries)
        = PDict (map_values _serialize_object entries)
        /\ keys (map_values _serialize_object entries) = keys entries)
  /\ (forall attrs,
        _serialize_object (PObject attrs)
        = PDict (map_values _serialize_object attrs)
        /\ keys (map_values _serialize_object attrs) = keys attrs)
  /\ (forall repr, _serialize_object (POther repr) = PStr repr).
Proof.
  repeat split.
  - apply serialize_json_friendly.
  - apply serialize_primitive.
  - apply keys_map_values.
  - apply keys_map_values.
Qed.

(* ================================================================== *)
(** * Properties of the paginated fetch *)
(* ================================================================== *)

Lemma len_pd_DataFrame dicts : len (pd_DataFrame dicts) = List.length dicts.
Proof.
  unfold len, pd_DataFrame. simpl.
  rewrite length_map, length_combine, length_seq. apply Nat.min_id.
Qed.

Lemma labels_pd_DataFrame dicts :
  map label (rows (pd_DataFrame dicts)) = seq 0 (List.length dicts).
Proof.
  unfold pd_DataFrame. simpl. rewrite map_map. simpl.
  generalize 0%nat. induction dicts as [|d tl IH]; intros s; simpl.
  - reflexivity.
  - f_equal. apply IH.
Qed.

Lemma NoDup_labels_pd_DataFrame dicts :
  NoDup (map label (rows (pd_DataFrame dicts))).
Proof. rewrite labels_pd_DataFrame. apply seq_NoDup. Qed.

Section FetchProperties.
Variable Conn : Type.
Variable getExpenses : Conn -> request -> list Expense * Conn.
Variable config_group_id : string.

Local Abbreviation request_at := (request_at config_group_id).
Local Abbreviation page_at := (page getExpenses config_group_id).
Local Abbreviation before := (conn_before getExpenses config_group_id).
Local Abbreviation loop := (fetch_loop getExpenses config_group_id).

Lemma getExpenses_at k c :
  getExpenses (before k c) (request_at k) = (page_at k c, before (S k) c).
Proof.
  unfold page. simpl. now destruct (getExpenses _ _).
Qed.

Lemma offset_step k : BATCH_SIZE * Z.of_nat k + BATCH_SIZE = BATCH_SIZE * Z.of_nat (S k).
Proof. unfold BATCH_SIZE. lia. Qed.

(** The loop entered at iteration [k], when the first empty page is the
    one of iteration [k + d]. *)
Lemma fetch_loop_runs c d :
  forall k fuel all_expenses log,
    (forall j, (k <= j < k + d)%nat -> page_at j c <> []) ->
    page_at (k + d) c = [] ->
    (d < fuel)%nat ->
    loop fuel (before k c) (BATCH_SIZE * Z.of_nat k) all_expenses log
    = Some ((all_expenses ++ List.concat (map (fun j => page_at j c) (seq k d)))%list,
            (log ++ map request_at (seq k (S d)))%list,
            before (S (k + d)) c).
Proof.
  induction d as [|d IH]; intros k fuel all_expenses log Hfull Hlast Hfuel.
  - destruct fuel as [|fuel]; [lia|].
    rewrite Nat.add_0_r in Hlast. rewrite Nat.add_0_r.
    cbn [fetch_loop]. fold (request_at k).
    rewrite getExpenses_at, Hlast. simpl.
    now rewrite app_nil_r.
  - destruct fuel as [|fuel]; [lia|].
    cbn [fetch_loop]. fold (request_at k).
    rewrite getExpenses_at.
    assert (Hk : page_at k c <> []) by (apply Hfull; lia).
    destruct (page_at k c) as [|x batch] eqn:Hpage; [congruence|].
    rewrite offset_step.
    rewrite (IH (S k)).
    + rewrite <- Hpage. rewrite <- !app_assoc. simpl.
      now rewrite Nat.add_succ_r.
    + intros j Hj. apply Hfull. lia.
    + now rewrite Nat.add_succ_r in Hlast.
    + lia.
Qed.

(** With too little fuel the loop is still asking for pages. *)
Lemma fetch_loop_still_running c d :
  forall k fuel all_expenses log,
    (forall j, (k <= j < k + d)%nat -> page_at j c <> []) ->
    (fuel <= d)%nat ->
    loop fuel (before k c) (BATCH_SIZE * Z.of_nat k) all_expenses log = None.
Proof.
  induction d as [|d IH]; intros k fuel all_expenses log Hfull Hfuel.
  - now replace fuel with 0%nat by lia.
  - destruct fuel as [|fuel]; [reflexivity|].
    cbn [fetch_loop]. fold (request_at k).
    rewrite getExpenses_at.
    assert (Hk : page_at k c <> []) by (apply Hfull; lia).
    destruct (page_at k c) as [|x batch] eqn:Hpage; [congruence|].
    rewrite offset_step. apply (IH (S k)).
    + intros j Hj. apply Hfull. lia.
    + lia.
Qed.

Lemma offsets_of_requests k n :
  map offset (map request_at (seq k n))
  = map (fun j => 100 * Z.of_nat j) (seq k n).
Proof. rewrite map_map. reflexivity. Qed.

Lemma limits_of_requests k n :
  Forall (fun r => limit r = 100 /\ visible r = true) (map request_at (seq k n)).
Proof.
  apply Forall_forall. intros r Hr.
  apply in_map_iff in Hr. destruct Hr as [j [<- _]]. now split.
Qed.

(** C1: when the pages of requests 0 .. n-1 are non-empty and the page of
    request n is empty, the fetch (given fuel for more than n requests)
    issues exactly the n+1 requests of limit 100 at offsets 0, 100, ...,
    100 n, and returns the table of the serialised records of pages
    0 .. n-1 in request order; with fuel for n requests or fewer the loop
    has not stopped.  In particular pages of sizes 100, 100, 37, 0 give the
    four offsets 0, 100, 200, 300 and 237 records. *)
Theorem get_raw_expenses_pagination (c : Conn) (n : nat) :
  (forall k, (k < n)%nat -> page_at k c <> []) ->
  page_at n c = [] ->
  let records := List.concat (map (fun k => page_at k c) (seq 0 n)) in
  (forall fuel, (n < fuel)%nat ->
     get_raw_expenses getExpenses config_group_id fuel c
     = Some (pd_DataFrame (map serialized_record records),
             map request_at (seq 0 (S n)),
             before (S n) c))
  /\ (forall fuel, (fuel <= n)%nat ->
        get_raw_expenses getExpenses config_group_id fuel c = None)
  /\ map offset (map request_at (seq 0 (S n)))
     = map (fun k => 100 * Z.of_nat k) (seq 0 (S n))
  /\ Forall (fun r => limit r = 100 /\ visible r = true)
       (map request_at (seq 0 (S n)))
  /\ len (pd_DataFrame (map serialized_record records)) = List.length records
  /\ (n = 3%nat ->
      List.length (page_at 0 c) = 100%nat ->
      List.length (page_at 1 c) = 100%nat ->
      List.length (page_at 2 c) = 37%nat ->
      map offset (map request_at (seq 0 (S n))) = [0; 100; 200; 300]
      /\ len (pd_DataFrame (map serialized_record records)) = 237%nat).
Proof.
  intros Hfull Hlast records.
  assert (Hlen : len (pd_DataFrame (map serialized_record records))
                 = List.length records)
    by (unfold serialized_record; now rewrite len_pd_DataFrame, length_map).
  split; [|split; [|split; [|split; [|split]]]].
  - intros fuel Hfuel. unfold get_raw_expenses.
    change 0 with (BATCH_SIZE * Z.of_nat 0).
    change c with (before 0 c) at 1.
    rewrite (@fetch_loop_runs c n 0 fuel [] []);
      [| intros j Hj; apply Hfull; lia | exact Hlast | exact Hfuel].
    cbn [app]. now rewrite map_map.
  - intros fuel Hfuel. unfold get_raw_expenses.
    change 0 with (BATCH_SIZE * Z.of_nat 0).
    change c with (before 0 c) at 1.
    rewrite (@fetch_loop_still_running c n 0 fuel [] []);
      [reflexivity | intros j Hj; apply Hfull; lia | exact Hfuel].
  - apply offsets_of_requests.
  - apply limits_of_requests.
  - exact Hlen.
  - intros Hn H0 H1 H2. split.
    + subst n. reflexivity.
    + rewrite Hlen. subst n. unfold records. simpl.
      rewrite !length_app. simpl. lia.
Qed.
End FetchProperties.

Lemma get_raw_expenses_pagination_witness :
  exists df log,
    get_raw_expenses queue_getExpenses "" 4 fake_pages = Some (df, log, [])
    /\ map offset log = [0; 100; 200; 300]
    /\ len df = 237%nat.
Proof.
  assert (Hfull : forall k, (k < 3)%nat ->
                    page queue_getExpenses "" k fake_pages <> []).
  { intros [|[|[|k]]] Hk; try lia; vm_compute; discriminate. }
  assert (Hlast : page queue_getExpenses "" 3 fake_pages = []) by reflexivity.
  destruct (@get_raw_expenses_pagination _ queue_getExpenses "" fake_pages 3
              Hfull Hlast) as (Hrun & _ & _ & _ & _ & Hpart).
  destruct (Hpart eq_refl eq_refl eq_refl eq_refl) as [Hoff Hlen].
  eexists. eexists. split; [|split].
  - apply (Hrun 4%nat). lia.
  - exact Hoff.
  - exact Hlen.
Defined.

(** The same run against the source that serves slices of 237 records, with
    a group configured: every request carries the group. *)
Example get_raw_expenses_slices :
  option_map (fun r => (len (fst (fst r)), snd (fst r)))
    (get_raw_expenses slice_getExpenses "42" 4 (List.concat fake_pages))
  = Some (237%nat,
          [mkRequest 100 0 true (Some "42"); mkRequest 100 100 true (Some "42");
           mkRequest 100 200 true (Some "42"); mkRequest 100 300 true (Some "42")]).
Proof. vm_compute. reflexivity. Qed.

(* ================================================================== *)
(** * Properties of the table operations *)
(* ================================================================== *)

Lemma bind_ret {A B} (a : A) (f : A -> M B) : bind (ret a) f = f a.
Proof. unfold bind, ret. simpl. now destruct (f a). Qed.

Lemma bind_print {B} (line : string) (f : unit -> M B) :
  bind (print line) f = (line :: fst (f tt), snd (f tt)).
Proof. reflexivity. Qed.

Lemma bind_raise {A B} (e : exn) (f : A -> M B) : bind (raise e) f = raise e.
Proof. reflexivity. Qed.

Lemma assoc_set_assoc_same {A} k (v : A) l : assoc k (set_assoc k v l) = Some v.
Proof.
  induction l as [|[k' v'] tl IH]; simpl.
  - now rewrite String.eqb_refl.
  - destruct (String.eqb k k') eqn:E; simpl.
    + now rewrite String.eqb_refl.
    + now rewrite E.
Qed.

Lemma assoc_set_assoc_other {A} k k' (v : A) l :
  k' <> k -> assoc k' (set_assoc k v l) = assoc k' l.
Proof.
  intros Hne. induction l as [|[k0 v0] tl IH]; simpl.
  - apply String.eqb_neq in Hne. now rewrite Hne.
  - destruct (String.eqb k k0) eqn:E; simpl.
    + apply String.eqb_eq in E. subst k0.
      apply String.eqb_neq in Hne. now rewrite Hne.
    + now rewrite IH.
Qed.

Lemma get_set_cell_same c v r : get c (set_cell c v r) = v.
Proof. unfold get, set_cell. simpl. now rewrite assoc_set_assoc_same. Qed.

Lemma get_set_cell_other c c' v r : c' <> c -> get c' (set_cell c v r) = get c' r.
Proof.
  intros Hne. unfold get, set_cell. simpl.
  now rewrite assoc_set_assoc_other.
Qed.

Lemma in_columns_iff c df : in_columns c df = true <-> In c (columns df).
Proof.
  unfold in_columns. rewrite existsb_exists. split.
  - intros [x [Hx E]]. apply String.eqb_eq in E. now subst.
  - intros H. exists c. split; [assumption | apply String.eqb_refl].
Qed.

(** A mask computed from a column selects the rows whose cell passes. *)
Lemma rows_loc_mask (p : cell -> bool) c df :
  rows (loc_mask (map p (col c df)) df) = filter (fun r => p (get c r)) (rows df).
Proof.
  unfold loc_mask, col. simpl.
  induction (rows df) as [|r tl IH]; simpl; [reflexivity|].
  destruct (p (get c r)); simpl; now rewrite IH.
Qed.

Lemma in_columns_loc_mask c mask df :
  in_columns c (loc_mask mask df) = in_columns c df.
Proof. reflexivity. Qed.

Lemma in_columns_set_column c c' values df :
  in_columns c' (set_column c values df) = in_columns c' df || String.eqb c' c.
Proof.
  unfold in_columns at 1. unfold set_column. simpl.
  destruct (in_columns c df) eqn:E.
  - fold (in_columns c' df).
    destruct (String.eqb c' c) eqn:E'.
    + apply String.eqb_eq in E'. subst. rewrite E. reflexivity.
    + now rewrite orb_false_r.
  - rewrite existsb_app. simpl. now rewrite orb_false_r.
Qed.

(** Assigning a column computed row by row. *)
Lemma rows_set_column_map c (f : Row -> cell) df :
  rows (set_column c (map f (rows df)) df)
  = map (fun r => set_cell c (f r) r) (rows df).
Proof.
  unfold set_column. simpl.
  induction (rows df) as [|r tl IH]; simpl; [reflexivity|].
  now rewrite IH.
Qed.

(** Every row of a table after an assignment is a row of the table before,
    with one of the assigned values in the column. *)
Lemma in_rows_set_column c values df r' :
  In r' (rows (set_column c values df)) ->
  exists r v, In r (rows df) /\ In v values /\ r' = set_cell c v r.
Proof.
  unfold set_column. simpl. intros H.
  apply in_map_iff in H. destruct H as [[r v] [<- Hin]].
  exists r, v. simpl. split; [|split]; try reflexivity.
  - eapply in_combine_l; eauto.
  - eapply in_combine_r; eauto.
Qed.

(** An assignment of as many values as there are rows keeps every row. *)
Lemma labels_set_column c values df :
  List.length values = List.length (rows df) ->
  map label (rows (set_column c values df)) = map label (rows df).
Proof.
  unfold set_column. simpl. rewrite map_map. simpl.
  revert values. induction (rows df) as [|r tl IH]; intros [|v values] Hlen;
    simpl in *; try discriminate; try reflexivity.
  f_equal. apply IH. lia.
Qed.

Lemma get_select c cols r :
  In c cols -> get c (mkRow (label r) (map (fun c => (c, get c r)) cols)) = get c r.
Proof.
  intros Hin. unfold get at 1. simpl.
  induction cols as [|c0 tl IH]; simpl; [contradiction|].
  destruct (String.eqb c c0) eqn:E.
  - apply String.eqb_eq in E. now subst.
  - apply IH. destruct Hin as [->|Hin]; [|assumption].
    rewrite String.eqb_refl in E. discriminate.
Qed.

Lemma existsb_eqb_filter c (p : string -> bool) l :
  existsb (String.eqb c) (filter p l) = existsb (String.eqb c) l && p c.
Proof.
  induction l as [|a tl IH]; simpl; [reflexivity|].
  destruct (String.eqb c a) eqn:E.
  - apply String.eqb_eq in E. subst a.
    destruct (p c) eqn:Hp; simpl.
    + now rewrite String.eqb_refl.
    + rewrite IH. now rewrite andb_false_r.
  - destruct (p a); simpl; [rewrite E|]; apply IH.
Qed.

Lemma combine_map_map {A B C} (g : A -> B) (f : A -> C) l :
  combine (map g l) (map f l) = map (fun x => (g x, f x)) l.
Proof. induction l as [|a tl IH]; simpl; [reflexivity | now rewrite IH]. Qed.

Lemma all_datetimes_cells ds : all_datetimes (map cell_of_datetime ds) = Some ds.
Proof.
  induction ds as [|d tl IH]; simpl; [reflexivity|].
  rewrite IH. now destruct d.
Qed.

(* ================================================================== *)
(** * Properties of the steps of the transform *)
(* ================================================================== *)

Lemma rows_expenses_only df :
  rows (expenses_only df) = filter (fun r => eq_False (get "payment" r)) (rows df).
Proof. apply rows_loc_mask. Qed.

Lemma filter_payments_run df :
  filter_payments df
  = (if in_columns "payment" df
     then [filtered_message (len df) (len (expenses_only df))]
     else [],
     inr (after_filter df)).
Proof.
  unfold filter_payments, after_filter.
  now destruct (in_columns "payment" df).
Qed.

Lemma in_columns_after_filter c df :
  in_columns c (after_filter df) = in_columns c df.
Proof. unfold after_filter. now destruct (in_columns "payment" df). Qed.

Lemma in_rows_after_filter df r :
  In r (rows (after_filter df)) ->
  In r (rows df)
  /\ (in_columns "payment" df = true -> eq_False (get "payment" r) = true).
Proof.
  unfold after_filter. destruct (in_columns "payment" df).
  - rewrite rows_expenses_only. intros H. apply filter_In in H. tauto.
  - intros H. split; [assumption | discriminate].
Qed.

Lemma in_columns_parse_dates pd c df :
  in_columns c (parse_dates pd df) = in_columns c df.
Proof.
  unfold parse_dates. destruct (in_columns "date" df) eqn:E; [|reflexivity].
  rewrite in_columns_loc_mask, in_columns_set_column.
  destruct (String.eqb c "date") eqn:E'; [|apply orb_false_r].
  apply String.eqb_eq in E'. subst. now rewrite E.
Qed.

Lemma in_columns_parse_costs pd c df :
  in_columns c (parse_costs pd df) = in_columns c df.
Proof.
  unfold parse_costs. destruct (in_columns "cost" df) eqn:E; [|reflexivity].
  rewrite in_columns_loc_mask, in_columns_set_column.
  destruct (String.eqb c "cost") eqn:E'; [|apply orb_false_r].
  apply String.eqb_eq in E'. subst. now rewrite E.
Qed.

(** A row that survives the date step is a row of the input whose date was
    replaced by a parsed date. *)
Lemma in_rows_parse_dates pd df r' :
  In r' (rows (parse_dates pd df)) ->
  exists r, In r (rows df) /\ label r' = label r
            /\ (forall c, c <> "date" -> get c r' = get c r)
            /\ (in_columns "date" df = true -> exists t, get "date" r' = CTime t).
Proof.
  unfold parse_dates. destruct (in_columns "date" df).
  - rewrite rows_loc_mask. intros H. apply filter_In in H. destruct H as [H Hna].
    apply in_rows_set_column in H. destruct H as (r & v & Hr & Hv & ->).
    exists r. split; [assumption|]. split; [reflexivity|]. split.
    + intros c Hc. now apply get_set_cell_other.
    + intros _. rewrite get_set_cell_same in *.
      apply in_map_iff in Hv. destruct Hv as [[t|] [<- _]].
      * now exists t.
      * discriminate.
  - intros H. exists r'. repeat split; trivial. discriminate.
Qed.

(** A row that survives the cost step is a row of the input whose cost was
    replaced by a number that is not NaN. *)
Lemma in_rows_parse_costs pd df r' :
  In r' (rows (parse_costs pd df)) ->
  exists r, In r (rows df) /\ label r' = label r
            /\ (forall c, c <> "cost" -> get c r' = get c r)
            /\ (in_columns "cost" df = true ->
                exists x, get "cost" r' = cell_of_number x
                          /\ isna (cell_of_number x) = false).
Proof.
  unfold parse_costs. destruct (in_columns "cost" df).
  - rewrite rows_loc_mask. intros H. apply filter_In in H. destruct H as [H Hna].
    apply in_rows_set_column in H. destruct H as (r & v & Hr & Hv & ->).
    exists r. split; [assumption|]. split; [reflexivity|]. split.
    + intros c Hc. now apply get_set_cell_other.
    + intros _. rewrite get_set_cell_same in *.
      apply in_map_iff in Hv. destruct Hv as [x [<- _]].
      exists x. split; [reflexivity|]. now apply negb_true_iff.
  - intros H. exists r'. repeat split; trivial. discriminate.
Qed.

Lemma filter_all {A} (p : A -> bool) l :
  Forall (fun x => p x = true) l -> filter p l = l.
Proof.
  induction 1 as [|x tl Hx _ IH]; simpl; [reflexivity|].
  now rewrite Hx, IH.
Qed.

(** When every date parses, the date step keeps every row: the parser
    returns one value per row, so no row is left without a partner. *)
Lemma parse_dates_keeps_parsed pd df :
  Forall (fun d => d <> None) (to_datetime pd (col "date" df)) ->
  map label (rows (parse_dates pd df)) = map label (rows df).
Proof.
  intros Hall. unfold parse_dates.
  destruct (in_columns "date" df); [|reflexivity].
  rewrite rows_loc_mask, filter_all.
  - apply labels_set_column.
    rewrite length_map, to_datetime_length. unfold col. apply length_map.
  - apply Forall_forall. intros r' Hr'.
    apply in_rows_set_column in Hr'. destruct Hr' as (r & v & _ & Hv & ->).
    rewrite get_set_cell_same.
    apply in_map_iff in Hv. destruct Hv as (d & <- & Hd).
    rewrite Forall_forall in Hall. specialize (Hall d Hd).
    destruct d; [reflexivity|congruence].
Qed.

(** When no cost comes back as NaN, the cost step keeps every row. *)
Lemma parse_costs_keeps_parsed pd df :
  Forall (fun x => isna (cell_of_number x) = false) (to_numeric pd (col "cost" df)) ->
  map label (rows (parse_costs pd df)) = map label (rows df).
Proof.
  intros Hall. unfold parse_costs.
  destruct (in_columns "cost" df); [|reflexivity].
  rewrite rows_loc_mask, filter_all.
  - apply labels_set_column.
    rewrite length_map, to_numeric_length. unfold col. apply length_map.
  - apply Forall_forall. intros r' Hr'.
    apply in_rows_set_column in Hr'. destruct Hr' as (r & v & _ & Hv & ->).
    rewrite get_set_cell_same.
    apply in_map_iff in Hv. destruct Hv as (x & <- & Hx).
    rewrite Forall_forall in Hall. now rewrite (Hall x Hx).
Qed.

Lemma in_columns_extract_categories py c df :
  c <> "category_name" ->
  in_columns c (extract_categories py df) = in_columns c df.
Proof.
  intros Hc. unfold extract_categories.
  destruct (in_columns "category" df); [|reflexivity].
  rewrite in_columns_set_column.
  apply String.eqb_neq in Hc. rewrite Hc. apply orb_false_r.
Qed.

Lemma in_rows_extract_categories py df r' :
  In r' (rows (extract_categories py df)) ->
  exists r, In r (rows df) /\ label r' = label r
            /\ (forall c, c <> "category_name" -> get c r' = get c r)
            /\ (in_columns "category" df = true ->
                get "category_name" r' = category_name_cell py (get "category" r)).
Proof.
  unfold extract_categories. destruct (in_columns "category" df).
  - unfold col. rewrite map_map, rows_set_column_map. intros H.
    apply in_map_iff in H. destruct H as [r [<- Hr]].
    exists r. split; [assumption|]. split; [reflexivity|]. split.
    + intros c Hc. now apply get_set_cell_other.
    + intros _. apply get_set_cell_same.
  - intros H. exists r'. repeat split; trivial. discriminate.
Qed.

Lemma in_wanted_cols c df :
  In c (wanted_cols df)
  <-> In c ["id"; "description"; "cost"; "currency_code"; "date"; "category_name"]
      /\ in_columns c df = true.
Proof. unfold wanted_cols. apply filter_In. Qed.

Lemma in_columns_select_wanted c df :
  In c ["id"; "description"; "cost"; "currency_code"; "date"; "category_name"] ->
  in_columns c (select_wanted df) = in_columns c df.
Proof.
  intros Hc. unfold select_wanted, select, in_columns at 1. simpl.
  unfold wanted_cols. rewrite existsb_eqb_filter.
  destruct (in_columns c df); [|apply andb_false_r].
  rewrite andb_true_r. apply existsb_exists. exists c.
  split; [assumption | apply String.eqb_refl].
Qed.

Lemma in_rows_select_wanted df r' :
  In r' (rows (select_wanted df)) ->
  exists r, In r (rows df) /\ label r' = label r
            /\ (forall c, In c (wanted_cols df) -> get c r' = get c r).
Proof.
  unfold select_wanted, select. simpl. intros H.
  apply in_map_iff in H. destruct H as [r [<- Hr]].
  exists r. split; [assumption|]. split; [reflexivity|].
  intros c Hc. now apply get_select.
Qed.

Lemma in_columns_date_prepared py pd raw_df :
  in_columns "date" (prepared py pd raw_df) = in_columns "date" raw_df.
Proof.
  unfold prepared.
  rewrite in_columns_select_wanted by (simpl; tauto).
  rewrite in_columns_extract_categories by discriminate.
  now rewrite in_columns_parse_costs, in_columns_parse_dates,
    in_columns_after_filter.
Qed.

(** Where a row of the prepared table comes from and what it holds. *)
Lemma in_rows_prepared py pd raw_df r' :
  In r' (rows (prepared py pd raw_df)) ->
  exists r0, In r0 (rows raw_df) /\ label r' = label r0
    /\ (in_columns "payment" raw_df = true -> eq_False (get "payment" r0) = true)
    /\ (in_columns "date" raw_df = true -> exists t, get "date" r' = CTime t)
    /\ (in_columns "cost" raw_df = true ->
        exists x, get "cost" r' = cell_of_number x
                  /\ isna (cell_of_number x) = false).
Proof.
  unfold prepared. intros H.
  apply in_rows_select_wanted in H. destruct H as (r4 & H & L4 & G4).
  apply in_rows_extract_categories in H. destruct H as (r3 & H & L3 & G3 & _).
  pose proof (in_rows_parse_costs _ _ _ H) as (r2 & H2 & L2 & G2 & C2).
  pose proof (in_rows_parse_dates _ _ _ H2) as (r1 & H1 & L1 & G1 & D1).
  apply in_rows_after_filter in H1. destruct H1 as [H0 P0].
  exists r1. split; [assumption|]. split; [congruence|]. split; [assumption|].
  split.
  - intros Hd. rewrite in_columns_after_filter in D1.
    destruct (D1 Hd) as [t Ht]. exists t.
    rewrite G4, G3, G2; try discriminate; trivial.
    apply in_wanted_cols. split; [simpl; tauto|].
    rewrite in_columns_extract_categories by discriminate.
    now rewrite in_columns_parse_costs, in_columns_parse_dates,
      in_columns_after_filter.
  - intros Hc. rewrite in_columns_parse_dates, in_columns_after_filter in C2.
    destruct (C2 Hc) as (x & Hx & Hna). exists x. split; [|assumption].
    rewrite G4, G3; try discriminate; trivial.
    apply in_wanted_cols. split; [simpl; tauto|].
    rewrite in_columns_extract_categories by discriminate.
    now rewrite in_columns_parse_costs, in_columns_parse_dates,
      in_columns_after_filter.
Qed.

Lemma all_datetimes_dates c (l : list Row) :
  Forall (fun r => exists t, get c r = CTime t) l ->
  all_datetimes (map (get c) l) = Some (map (fun r => date_of (get c r)) l).
Proof.
  induction 1 as [|r tl [t Ht] _ IH]; simpl; [reflexivity|].
  now rewrite IH, Ht.
Qed.

(** The month step fails with [KeyError] exactly when there is no date
    column. *)
Lemma add_month_columns_no_date df :
  in_columns "date" df = false -> add_month_columns df = raise (KeyError "date").
Proof.
  intros H. unfold add_month_columns, getitem. now rewrite H.
Qed.

(** On a table whose date column holds dates, the month step succeeds and
    extends every row. *)
Lemma add_month_columns_dates df :
  in_columns "date" df = true ->
  Forall (fun r => exists t, get "date" r = CTime t) (rows df) ->
  exists df', add_month_columns df = ret df'
              /\ rows df' = map with_month_columns (rows df).
Proof.
  intros Hcol Hdates. unfold add_month_columns, getitem.
  rewrite Hcol, bind_ret. unfold dt at 1. unfold col at 1.
  rewrite (all_datetimes_dates _ Hdates), bind_ret, map_map.
  set (h := fun r => option_map month_start (date_of (get "date" r))).
  set (g := fun r => set_cell "month" (to_month_start (date_of (get "date" r))) r).
  set (df1 := set_column "month" _ df).
  assert (Hrows : rows df1 = map g (rows df)) by apply rows_set_column_map.
  assert (Hin : in_columns "month" df1 = true).
  { unfold df1. rewrite in_columns_set_column. apply orb_true_r. }
  assert (Hmonth : col "month" df1 = map cell_of_datetime (map h (rows df))).
  { unfold col. rewrite Hrows, !map_map. apply map_ext.
    intros r. apply get_set_cell_same. }
  rewrite Hin, bind_ret. unfold dt.
  rewrite Hmonth, all_datetimes_cells, bind_ret.
  eexists. split; [reflexivity|].
  unfold set_column at 1. cbn [rows]. rewrite Hrows.
  rewrite map_map, combine_map_map, map_map. reflexivity.
Qed.

Lemma stdout_add_month_columns df : stdout (add_month_columns df) = [].
Proof.
  unfold add_month_columns, getitem.
  destruct (in_columns "date" df); [|reflexivity].
  rewrite bind_ret. unfold dt.
  destruct (all_datetimes (col "date" df)); [|reflexivity].
  rewrite bind_ret.
  match goal with
  | |- context [in_columns "month" ?d] => destruct (in_columns "month" d)
  end; [|reflexivity].
  rewrite bind_ret.
  match goal with
  | |- context [all_datetimes ?l] => destruct (all_datetimes l)
  end; reflexivity.
Qed.

(** The transform on a table that is not empty: the messages are those of
    the payment filter, and the rest is the month step on the prepared
    table. *)
Lemma process_for_dashboard_run py pd raw_df :
  df_empty raw_df = false ->
  stdout (process_for_dashboard py pd raw_df) = stdout (filter_payments raw_df)
  /\ outcome (process_for_dashboard py pd raw_df)
     = outcome (add_month_columns (prepared py pd raw_df)).
Proof.
  intros Hne. unfold process_for_dashboard. rewrite Hne.
  rewrite filter_payments_run. unfold bind, stdout, outcome. simpl.
  fold (prepared py pd raw_df).
  pose proof (stdout_add_month_columns (prepared py pd raw_df)) as Hs.
  unfold stdout, prepared in *. rewrite Hs, app_nil_r. now split.
Qed.

(** The transform succeeds on every table that has a date column (or is
    empty), and its rows are the prepared rows with their month columns. *)
Lemma process_for_dashboard_with_date py pd raw_df :
  df_empty raw_df = false ->
  in_columns "date" raw_df = true ->
  exists out, outcome (process_for_dashboard py pd raw_df) = inr out
              /\ rows out = map with_month_columns (rows (prepared py pd raw_df)).
Proof.
  intros Hne Hdate.
  destruct (process_for_dashboard_run py pd raw_df Hne) as [_ Hout].
  destruct (@add_month_columns_dates (prepared py pd raw_df)) as (out & Hrun & Hrows).
  - now rewrite in_columns_date_prepared.
  - apply Forall_forall. intros r Hr.
    apply in_rows_prepared in Hr. destruct Hr as (_ & _ & _ & _ & Hd & _). auto.
  - exists out. rewrite Hout, Hrun. now split.
Qed.

Lemma process_for_dashboard_without_date py pd raw_df :
  df_empty raw_df = false ->
  in_columns "date" raw_df = false ->
  outcome (process_for_dashboard py pd raw_df) = inl (KeyError "date").
Proof.
  intros Hne Hdate.
  destruct (process_for_dashboard_run py pd raw_df Hne) as [_ Hout].
  rewrite Hout, add_month_columns_no_date; [reflexivity|].
  now rewrite in_columns_date_prepared.
Qed.

Lemma get_with_month_columns c r :
  c <> "month" -> c <> "month_str" -> get c (with_month_columns r) = get c r.
Proof.
  intros H1 H2. unfold with_month_columns.
  now rewrite !get_set_cell_other.
Qed.

Lemma month_of_with_month_columns r t :
  get "date" r = CTime t ->
  get "month" (with_month_columns r) = CTime (month_start t)
  /\ get "month_str" (with_month_columns r)
     = CObj (PStr (strftime_Y_m (month_start t))).
Proof.
  intros Ht. unfold with_month_columns. rewrite Ht. simpl. split.
  - rewrite get_set_cell_other by discriminate. apply get_set_cell_same.
  - apply get_set_cell_same.
Qed.

Lemma NoDup_map_injective {A B} (f : A -> B) l a b :
  NoDup (map f l) -> In a l -> In b l -> f a = f b -> a = b.
Proof.
  induction l as [|x tl IH]; simpl; [contradiction|].
  intros Hnd Ha Hb E. inversion Hnd as [|? ? Hx Htl]; subst.
  destruct Ha as [->|Ha], Hb as [->|Hb]; trivial.
  - exfalso. apply Hx. rewrite E. now apply in_map.
  - exfalso. apply Hx. rewrite <- E. now apply in_map.
  - now apply IH.
Qed.

(* ================================================================== *)
(** * The claims about [process_for_dashboard] *)
(* ================================================================== *)

(** C2: the steps up to the projection test their column and leave the
    table alone when it is missing, but the month step does not: a table
    that is not empty and has no date column ends the transform with
    [KeyError: 'date'], whatever the parsers are. *)
Theorem process_for_dashboard_raises_without_date py :
  (forall df, in_columns "payment" df = false -> filter_payments df = ret df)
  /\ (forall pd df, in_columns "date" df = false -> parse_dates pd df = df)
  /\ (forall pd df, in_columns "cost" df = false -> parse_costs pd df = df)
  /\ (forall df, in_columns "category" df = false -> extract_categories py df = df)
  /\ (forall pd raw_df,
        df_empty raw_df = false -> in_columns "date" raw_df = false ->
        outcome (process_for_dashboard py pd raw_df) = inl (KeyError "date"))
  /\ (forall pd,
        df_empty table_without_date = false
        /\ in_columns "date" table_without_date = false
        /\ outcome (process_for_dashboard py pd table_without_date)
           = inl (KeyError "date")).
Proof.
  split; [|split; [|split; [|split; [|split]]]].
  - intros df H. unfold filter_payments. now rewrite H.
  - intros pd df H. unfold parse_dates. now rewrite H.
  - intros pd df H. unfold parse_costs. now rewrite H.
  - intros df H. unfold extract_categories. now rewrite H.
  - apply process_for_dashboard_without_date.
  - intros pd. split; [reflexivity|]. split; [reflexivity|].
    now apply process_for_dashboard_without_date.
Qed.

(** C6: on an empty table the transform returns the table itself, prints
    nothing and raises nothing, whatever the parsers are: no column is
    read, parsed or added.  In particular the table with no row and no
    column comes back as it is. *)
Theorem process_for_dashboard_empty py pd raw_df :
  df_empty raw_df = true ->
  process_for_dashboard py pd raw_df = ([], inr raw_df)
  /\ (forall out, outcome (process_for_dashboard py pd raw_df) = inr out ->
                  df_empty out = true /\ columns out = columns raw_df
                  /\ rows out = rows raw_df).
Proof.
  intros He. unfold process_for_dashboard. rewrite He. split; [reflexivity|].
  intros out H. injection H as <-. auto.
Qed.

Lemma process_for_dashboard_empty_witness :
  df_empty (pd_DataFrame []) = true
  /\ process_for_dashboard plain_objects pandas_reference (pd_DataFrame [])
     = ([], inr (mkDataFrame [] [])).
Proof.
  split; [reflexivity|].
  apply (proj1 (@process_for_dashboard_empty plain_objects pandas_reference (pd_DataFrame [])
                  eq_refl)).
Defined.

(** Every row of the output of a table with at least one column is a
    prepared row with its month columns, and the table had a date column. *)
Lemma in_rows_output py pd raw_df out r :
  outcome (process_for_dashboard py pd raw_df) = inr out ->
  columns raw_df <> [] ->
  In r (rows out) ->
  in_columns "date" raw_df = true
  /\ exists r', In r' (rows (prepared py pd raw_df)) /\ r = with_month_columns r'.
Proof.
  intros Hout Hcols Hr.
  destruct (df_empty raw_df) eqn:He.
  - exfalso. unfold process_for_dashboard in Hout. rewrite He in Hout.
    injection Hout as <-. unfold df_empty in He.
    destruct (columns raw_df); [congruence|].
    destruct (rows raw_df); [contradiction|discriminate].
  - destruct (in_columns "date" raw_df) eqn:Hd.
    + split; [reflexivity|].
      destruct (process_for_dashboard_with_date py pd raw_df He Hd) as (out' & Ho & Hrows).
      rewrite Ho in Hout. injection Hout as ->.
      rewrite Hrows in Hr. apply in_map_iff in Hr.
      destruct Hr as (r' & <- & Hr'). now exists r'.
    + rewrite process_for_dashboard_without_date in Hout by assumption.
      discriminate.
Qed.

Lemma process_for_dashboard_succeeds py pd raw_df :
  in_columns "date" raw_df = true ->
  exists out, outcome (process_for_dashboard py pd raw_df) = inr out.
Proof.
  intros Hd. destruct (df_empty raw_df) eqn:He.
  - exists raw_df. unfold process_for_dashboard. now rewrite He.
  - destruct (process_for_dashboard_with_date py pd raw_df He Hd) as (out & Ho & _).
    now exists out.
Qed.

Lemma columns_nonempty c df : in_columns c df = true -> columns df <> [].
Proof.
  intros H. apply in_columns_iff in H. now destruct (columns df).
Qed.


(** C10: when the payment column is present, every record of the output
    stems from an input record whose payment value compares equal to False,
    and (the labels of the input being distinct) no input record whose
    payment value does not compare equal to False has its label in the
    output; a missing value, None, NaN, True or a string are such values.
    The filter itself keeps exactly the rows that compare equal to False. *)
Theorem payment_filter_keeps_only_False py pd raw_df out :
  in_columns "payment" raw_df = true ->
  outcome (process_for_dashboard py pd raw_df) = inr out ->
  (forall r, In r (rows out) ->
     exists r0, In r0 (rows raw_df) /\ label r0 = label r
                /\ eq_False (get "payment" r0) = true)
  /\ (NoDup (map label (rows raw_df)) ->
      forall r0, In r0 (rows raw_df) ->
        eq_False (get "payment" r0) = false ->
        ~ In (label r0) (map label (rows out)))
  /\ rows (after_filter raw_df)
     = filter (fun r => eq_False (get "payment" r)) (rows raw_df)
  /\ (forall r0, assoc "payment" (cells r0) = None ->
                 eq_False (get "payment" r0) = false)
  /\ eq_False (CObj PNone) = false
  /\ eq_False (CObj NaN) = false
  /\ eq_False (CObj (PBool true)) = false
  /\ (forall s, eq_False (CObj (PStr s)) = false)
  /\ eq_False (CObj (PBool false)) = true.
Proof.
  intros Hp Hout.
  assert (Hstem : forall r, In r (rows out) ->
            exists r0, In r0 (rows raw_df) /\ label r0 = label r
                       /\ eq_False (get "payment" r0) = true).
  { intros r Hr.
    destruct (@in_rows_output py pd raw_df out r Hout (@columns_nonempty _ _ Hp) Hr)
      as (_ & r' & Hr' & ->).
    apply in_rows_prepared in Hr'.
    destruct Hr' as (r0 & H0 & L0 & P0 & _).
    exists r0. split; [assumption|]. split; [now rewrite <- L0|]. auto. }
  split; [exact Hstem|]. split; [|split; [|split]].
  - intros Hnd r0 H0 Hflag Hin.
    apply in_map_iff in Hin. destruct Hin as (r & Hl & Hr).
    destruct (Hstem r Hr) as (r1 & H1 & L1 & P1).
    assert (r1 = r0).
    { apply (NoDup_map_injective label (rows raw_df)); trivial. congruence. }
    subst r1. congruence.
  - unfold after_filter. rewrite Hp. apply rows_expenses_only.
  - intros r0 H. unfold get. now rewrite H.
  - repeat split.
Qed.


Lemma payment_filter_keeps_only_False_witness :
  in_columns "payment" mixed_records = true
  /\ NoDup (map label (rows mixed_records))
  /\ exists out,
       outcome (process_for_dashboard plain_objects pandas_reference mixed_records) = inr out
       /\ ~ In 3%nat (map label (rows out))
       /\ ~ In 4%nat (map label (rows out))
       /\ ~ In 5%nat (map label (rows out)).
Proof.
  assert (Hnd : NoDup (map label (rows mixed_records)))
    by apply NoDup_labels_pd_DataFrame.
  split; [reflexivity|]. split; [exact Hnd|].
  destruct (@process_for_dashboard_succeeds plain_objects pandas_reference mixed_records eq_refl)
    as [out Hout].
  exists out. split; [assumption|].
  destruct (@payment_filter_keeps_only_False plain_objects pandas_reference mixed_records out
              eq_refl Hout) as (_ & Hdrop & _).
  pose proof (Hdrop Hnd) as H.
  split; [|split].
  - apply (H (nth 3 (rows mixed_records) (mkRow 0 []))); [|reflexivity].
    vm_compute. tauto.
  - apply (H (nth 4 (rows mixed_records) (mkRow 0 []))); [|reflexivity].
    vm_compute. tauto.
  - apply (H (nth 5 (rows mixed_records) (mkRow 0 []))); [|reflexivity].
    vm_compute. tauto.
Defined.

Lemma digit_value_digit n : digit_value (digit n) = Some (n mod 10).
Proof.
  unfold digit, digit_value.
  assert (H : 0 <= n mod 10 < 10) by (apply Z.mod_pos_bound; lia).
  rewrite nat_ascii_embedding by lia.
  rewrite Nat2Z.inj_add, Z2Nat.id by lia.
  change (Z.of_nat 48) with 48.
  replace (48 <=? 48 + n mod 10) with true by (symmetry; apply Z.leb_le; lia).
  replace (48 + n mod 10 <=? 57) with true by (symmetry; apply Z.leb_le; lia).
  cbn [andb]. f_equal. lia.
Qed.

(** The label is the year on four digits, a dash, the month on two digits:
    read back, it gives the year and the month of the date. *)
Lemma strftime_Y_m_reads_back t :
  0 <= year t < 10000 -> 0 <= month t < 100 ->
  String.length (strftime_Y_m t) = 7%nat
  /\ parse_decimal (substring 0 4 (strftime_Y_m t)) = Some (year t)
  /\ substring 4 1 (strftime_Y_m t) = "-"
  /\ parse_decimal (substring 5 2 (strftime_Y_m t)) = Some (month t).
Proof.
  intros Hy Hm. unfold strftime_Y_m.
  split; [reflexivity|]. split; [|split; [reflexivity|]].
  - cbn [substring parse_decimal digits_value].
    rewrite !digit_value_digit. cbn [digits_value]. f_equal.
    Z.to_euclidean_division_equations. lia.
  - cbn [substring parse_decimal digits_value].
    rewrite !digit_value_digit. cbn [digits_value]. f_equal.
    Z.to_euclidean_division_equations. lia.
Qed.

(** C7: the output of the transform is either the input itself, when the
    input is empty and the shortcut of the first lines returns it with
    nothing derived, or a table in which every record holds a parsed date,
    has as month that date cut back to the first instant of its calendar
    month (same year and month, day 1, midnight), and has as month_str the
    year-month label of that month start.  For a date with a four-digit year
    the label has seven characters: the year on four digits, a dash and the
    month on two digits, so that reading the digits back gives the year and
    the month of the date.  A date in March 2024, such as 2024-03-17, gives
    the month 2024-03-01 and the label 2024-03. *)
Theorem month_columns_derived_from_date py pd raw_df out :
  outcome (process_for_dashboard py pd raw_df) = inr out ->
  (df_empty raw_df = true /\ out = raw_df)
  \/ (df_empty raw_df = false
      /\ forall r, In r (rows out) ->
           exists t label,
             get "date" r = CTime t
             /\ get "month" r = CTime (month_start t)
             /\ month_start t = mkTimestamp (year t) (month t) 1 0
             /\ get "month_str" r = CObj (PStr label)
             /\ label = strftime_Y_m (month_start t)
             /\ (1000 <= year t <= 9999 -> 1 <= month t <= 12 ->
                 String.length label = 7%nat
                 /\ parse_decimal (substring 0 4 label) = Some (year t)
                 /\ substring 4 1 label = "-"
                 /\ parse_decimal (substring 5 2 label) = Some (month t))
             /\ (year t = 2024 -> month t = 3 ->
                 get "month" r = CTime (mkTimestamp 2024 3 1 0)
                 /\ get "month_str" r = CObj (PStr "2024-03"))).
Proof.
  intros Hout.
  destruct (df_empty raw_df) eqn:He.
  - left. split; [reflexivity|].
    unfold process_for_dashboard in Hout. rewrite He in Hout.
    now injection Hout as <-.
  - right. split; [reflexivity|]. intros r Hr.
    assert (Hcols : columns raw_df <> []).
    { unfold df_empty in He. destruct (columns raw_df); [discriminate|].
      discriminate. }
    destruct (@in_rows_output py pd raw_df out r Hout Hcols Hr)
      as (Hd & r' & Hr' & ->).
    apply in_rows_prepared in Hr'.
    destruct Hr' as (_ & _ & _ & _ & D0 & _).
    destruct (D0 Hd) as [t Ht].
    exists t, (strftime_Y_m (month_start t)).
    destruct (month_of_with_month_columns r' Ht) as [Hm Hs].
    rewrite get_with_month_columns by discriminate.
    split; [assumption|]. split; [assumption|]. split; [reflexivity|].
    split; [assumption|]. split; [reflexivity|]. split.
    + intros Hy Hmo.
      apply (strftime_Y_m_reads_back (month_start t)); cbn [month_start year month];
        lia.
    + intros Hy Hmo. rewrite Hm, Hs. unfold month_start, strftime_Y_m.
      cbn [year month]. rewrite Hy, Hmo. split; reflexivity.
Qed.

Lemma month_columns_derived_from_date_witness :
  exists out r,
    outcome (process_for_dashboard plain_objects pandas_reference mixed_records)
    = inr out
    /\ rows out = [r]
    /\ get "date" r = CTime (mkTimestamp 2024 3 17 0)
    /\ get "month" r = CTime (mkTimestamp 2024 3 1 0)
    /\ get "month_str" r = CObj (PStr "2024-03")
    /\ (exists label,
          get "month_str" r = CObj (PStr label)
          /\ parse_decimal (substring 0 4 label) = Some 2024
          /\ parse_decimal (substring 5 2 label) = Some 3).
Proof.
  destruct (@process_for_dashboard_succeeds plain_objects pandas_reference
              mixed_records eq_refl) as [out Hout].
  pose proof (@month_columns_derived_from_date plain_objects pandas_reference
                mixed_records out Hout) as Hall.
  exists out, (nth 0 (rows out) (mkRow 0 [])). split; [exact Hout|].
  vm_compute in Hout. injection Hout as <-.
  split; [reflexivity|].
  destruct Hall as [[He _]|[_ Hall]]; [vm_compute in He; discriminate|].
  destruct (Hall _ (or_introl eq_refl))
    as (t & label & Hd & _ & _ & Hl & _ & Hback & Hmarch).
  vm_compute in Hd. injection Hd as <-.
  split; [reflexivity|].
  destruct (Hmarch eq_refl eq_refl) as [Hm Hs].
  split; [exact Hm|]. split; [exact Hs|].
  exists label. split; [exact Hl|].
  destruct Hback as (_ & Hyear & _ & Hmonth); cbn [year month]; try lia.
  split; assumption.
Defined.





(* ================================================================== *)
(** * The claims about [_extract_category_name] *)
(* ================================================================== *)

(** On an object with a class of its own the function is the attribute
    lookup followed by the truth test of what was found, each under the
    handler. *)
Lemma extract_category_name_foreign py obj :
  is_foreign obj = true ->
  _extract_category_name py obj
  = match lookup_name py obj with
    | inr name =>
        match py_truthy py name with
        | inr true => name
        | _ => PNone
        end
    | inl _ => PNone
    end.
Proof.
  intros H. unfold _extract_category_name, extract_category_name_body,
    getattr_or_None, py_or.
  destruct obj; try discriminate.
  - destruct (lookup_name py (PObject attrs)) as [[|what]|name]; try reflexivity.
    destruct (py_truthy py name) as [e|[|]]; reflexivity.
  - destruct (lookup_name py (POther repr)) as [[|what]|name]; try reflexivity.
    destruct (py_truthy py name) as [e|[|]]; reflexivity.
Qed.

(** C8 (as amended): whatever the classes of the objects involved do, a
    mapping with a name key yields the value under that key, and an object
    that exposes a name attribute (an instance, a slotted object, a named
    tuple) yields that name when it is truthy, as a non-empty string is.
    The result is None when the name found is falsy, when its truth test
    raises, when the lookup finds no attribute or raises any exception, for
    None, for a mapping without the key and for a boolean, number, string or
    list: the handler turns every exception of the body into None. *)
Theorem extract_category_name_cases py :
  (forall entries name,
     assoc "name" entries = Some name ->
     _extract_category_name py (PDict entries) = name)
  /\ (forall obj name,
        is_foreign obj = true ->
        lookup_name py obj = inr name -> py_truthy py name = inr true ->
        _extract_category_name py obj = name)
  /\ (forall obj name,
        is_foreign obj = true ->
        lookup_name py obj = inr name -> py_truthy py name = inr false ->
        _extract_category_name py obj = PNone)
  /\ (forall obj name e,
        is_foreign obj = true ->
        lookup_name py obj = inr name -> py_truthy py name = inl e ->
        _extract_category_name py obj = PNone)
  /\ (forall obj e,
        is_foreign obj = true -> lookup_name py obj = inl e ->
        _extract_category_name py obj = PNone)
  /\ _extract_category_name py PNone = PNone
  /\ (forall entries,
        assoc "name" entries = None ->
        _extract_category_name py (PDict entries) = PNone)
  /\ (forall v, has_no_name_shape v = true -> _extract_category_name py v = PNone)
  /\ _extract_category_name py (PDict [("name", PStr "Food")]) = PStr "Food"
  /\ _extract_category_name plain_objects (PObject [("name", PStr "Food")])
     = PStr "Food"
  /\ _extract_category_name classy_objects (POther "Category(name='Food')")
     = PStr "Food".
Proof.
  split; [|split; [|split; [|split; [|split; [|split; [|split; [|split;
    [|split; [|split]]]]]]]]].
  - intros entries name H.
    unfold _extract_category_name, extract_category_name_body, dict_get.
    cbn. now rewrite H.
  - intros obj name Hf Hl Ht.
    rewrite (extract_category_name_foreign py obj Hf), Hl, Ht. reflexivity.
  - intros obj name Hf Hl Ht.
    rewrite (extract_category_name_foreign py obj Hf), Hl, Ht. reflexivity.
  - intros obj name e Hf Hl Ht.
    rewrite (extract_category_name_foreign py obj Hf), Hl, Ht. reflexivity.
  - intros obj e Hf Hl.
    rewrite (extract_category_name_foreign py obj Hf), Hl. reflexivity.
  - reflexivity.
  - intros entries H.
    unfold _extract_category_name, extract_category_name_body, dict_get.
    cbn. now rewrite H.
  - intros v H. destruct v; try discriminate; reflexivity.
  - reflexivity.
  - reflexivity.
  - reflexivity.
Qed.

Lemma extract_category_name_cases_witness :
  _extract_category_name classy_objects (POther "Category(name='Food')")
  = PStr "Food"
  /\ _extract_category_name plain_objects
       (PObject [("id", PInt 12); ("name", PStr "Food")]) = PStr "Food"
  /\ _extract_category_name plain_objects
       (PDict [("id", PInt 12); ("name", PStr "Food")]) = PStr "Food"
  /\ _extract_category_name classy_objects (POther "Holder(name=())") = PNone
  /\ _extract_category_name classy_objects (POther "Holder(name=<Unsure>)") = PNone
  /\ _extract_category_name classy_objects
       (PObject [("_broken", PBool true); ("name", PStr "Food")]) = PNone
  /\ _extract_category_name plain_objects (PObject [("id", PInt 12)]) = PNone.
Proof.
  split; [|split; [|split; [|split; [|split; [|split]]]]].
  - apply (proj1 (proj2 (extract_category_name_cases classy_objects))
             (POther "Category(name='Food')") (PStr "Food"));
      reflexivity.
  - apply (proj1 (proj2 (extract_category_name_cases plain_objects))
             (PObject [("id", PInt 12); ("name", PStr "Food")]) (PStr "Food"));
      reflexivity.
  - apply (proj1 (extract_category_name_cases plain_objects)
             [("id", PInt 12); ("name", PStr "Food")] (PStr "Food")).
    reflexivity.
  - apply (proj1 (proj2 (proj2 (extract_category_name_cases classy_objects)))
             (POther "Holder(name=())") (POther "()"));
      reflexivity.
  - apply (proj1 (proj2 (proj2 (proj2 (extract_category_name_cases classy_objects))))
             (POther "Holder(name=<Unsure>)") (POther "<Unsure>")
             (OtherException "ValueError"));
      reflexivity.
  - apply (proj1 (proj2 (proj2 (proj2 (proj2
                    (extract_category_name_cases classy_objects)))))
             (PObject [("_broken", PBool true); ("name", PStr "Food")])
             (OtherException "RuntimeError"));
      reflexivity.
  - apply (proj1 (proj2 (proj2 (proj2 (proj2
                    (extract_category_name_cases plain_objects)))))
             (PObject [("id", PInt 12)]) NoSuchAttribute);
      reflexivity.
Defined.

(** C8 as the specification states it fails: an object that exposes the
    empty string as its name yields None, not its name. *)
Lemma extract_category_name_empty_name :
  ~ (forall py obj name,
       is_foreign obj = true -> lookup_name py obj = inr name ->
       _extract_category_name py obj = name).
Proof.
  intros H.
  specialize (H plain_objects (PObject [("name", PStr "")]) (PStr "")
                eq_refl eq_refl).
  discriminate.
Qed.

(* ================================================================== *)
(** * The claims about the bootstrap script *)
(* ================================================================== *)

Lemma existsb_eqb_not_in k l : ~ In k l -> existsb (String.eqb k) l = false.
Proof.
  intros H. apply not_true_is_false. intros E.
  apply existsb_exists in E. destruct E as (x & Hx & Ex).
  apply String.eqb_eq in Ex. subst. contradiction.
Qed.

Section BootstrapProperties.
Variable load_json : string -> exn + pyval.
Variable authorize : string -> pyval -> M unit.

Local Abbreviation run := (main load_json authorize).

Lemma main_usage argv :
  List.length argv <> 2%nat ->
  run argv
  = (["Usage: python get_gdrive_token.py <path-to-credentials.json>";
      nl ++ "Example: python get_gdrive_token.py ~/Downloads/client_secret_123.json"],
     inl (SystemExit 1)).
Proof.
  intros H. unfold main.
  apply Nat.eqb_neq in H. rewrite H. reflexivity.
Qed.

Lemma main_file_not_found prog path :
  load_json path = inl FileNotFoundError ->
  outcome (run [prog; path]) = inl (SystemExit 1)
  /\ stdout (run [prog; path])
     = [nl ++ "=== Google Drive OAuth Setup ===" ++ nl;
        "Error: Could not find credentials file: " ++ path;
        nl ++ "Please download the OAuth credentials JSON from Google Cloud Console:";
        "1. Go to https://console.cloud.google.com/";
        "2. Select your project";
        "3. Go to APIs & Services → Credentials";
        "4. Click on your OAuth 2.0 Client ID";
        "5. Click 'Download JSON'"].
Proof.
  intros H. unfold main, get_refresh_token. simpl. rewrite H.
  split; reflexivity.
Qed.

Lemma main_load_error prog path e :
  load_json path = inl e -> e <> FileNotFoundError ->
  run [prog; path] = ([nl ++ "=== Google Drive OAuth Setup ===" ++ nl], inl e).
Proof.
  intros H Hne. unfold main, get_refresh_token. simpl. rewrite H.
  destruct e; try reflexivity. congruence.
Qed.

Lemma main_invalid_dict prog path entries :
  load_json path = inr (PDict entries) ->
  ~ In "installed" (keys entries) -> ~ In "web" (keys entries) ->
  run [prog; path]
  = ([nl ++ "=== Google Drive OAuth Setup ===" ++ nl;
      "Error: Invalid credentials file format"],
     inl (SystemExit 1)).
Proof.
  intros H Hi Hw. unfold main. cbn [List.length Nat.eqb negb nth].
  unfold get_refresh_token. rewrite H, bind_print, bind_ret.
  cbn [py_contains].
  rewrite (existsb_eqb_not_in _ _ Hi), bind_ret.
  rewrite (existsb_eqb_not_in _ _ Hw), bind_ret.
  reflexivity.
Qed.

Lemma main_not_iterable prog path v :
  load_json path = inr v ->
  match v with
  | PNone | PBool _ | PInt _ | PFloat _ => True
  | _ => False
  end ->
  run [prog; path]
  = ([nl ++ "=== Google Drive OAuth Setup ===" ++ nl], inl TypeError).
Proof.
  intros H Hv. unfold main, get_refresh_token. simpl. rewrite H.
  destruct v; try contradiction; reflexivity.
Qed.

(** C9 (as amended): with an argument count other than one the script
    prints its usage and exits with status 1; with a credentials file that
    does not exist, or that parses to a JSON object with neither an
    installed nor a web block, it prints its error message and exits with
    status 1; when the file exists but cannot be read or parsed, or parses
    to a number, a boolean or null, the exception is not caught: the script
    prints no message of its own after its banner, and the process ends
    with status 1 through the uncaught exception. *)
Theorem bootstrap_failure_modes :
  (forall argv,
     List.length argv <> 2%nat ->
     exits_with_message 1
       "Usage: python get_gdrive_token.py <path-to-credentials.json>" (run argv)
     /\ exit_status (run argv) = 1)
  /\ (forall prog path,
        load_json path = inl FileNotFoundError ->
        exits_with_message 1
          ("Error: Could not find credentials file: " ++ path) (run [prog; path])
        /\ exit_status (run [prog; path]) = 1)
  /\ (forall prog path entries,
        load_json path = inr (PDict entries) ->
        ~ In "installed" (keys entries) -> ~ In "web" (keys entries) ->
        exits_with_message 1 "Error: Invalid credentials file format"
          (run [prog; path])
        /\ exit_status (run [prog; path]) = 1)
  /\ (forall prog path e,
        load_json path = inl e -> e <> FileNotFoundError ->
        (forall code, e <> SystemExit code) ->
        outcome (run [prog; path]) = inl e
        /\ reports_failure (run [prog; path]) = false
        /\ exit_status (run [prog; path]) = 1)
  /\ (forall prog path v,
        load_json path = inr v ->
        match v with
        | PNone | PBool _ | PInt _ | PFloat _ => True
        | _ => False
        end ->
        outcome (run [prog; path]) = inl TypeError
        /\ reports_failure (run [prog; path]) = false
        /\ exit_status (run [prog; path]) = 1).
Proof.
  split; [|split; [|split; [|split]]].
  - intros argv H. rewrite (@main_usage argv H).
    split; [|reflexivity]. split; [reflexivity | simpl; tauto].
  - intros prog path H.
    destruct (@main_file_not_found prog path H) as [Ho Hs].
    unfold exits_with_message, exit_status. rewrite Ho, Hs.
    split; [|reflexivity]. split; [reflexivity | simpl; tauto].
  - intros prog path entries H Hi Hw.
    rewrite (@main_invalid_dict prog path entries H Hi Hw).
    split; [|reflexivity]. split; [reflexivity | simpl; tauto].
  - intros prog path e H Hne Hexit.
    rewrite (@main_load_error prog path e H Hne).
    split; [reflexivity|]. split; [reflexivity|].
    unfold exit_status, outcome. simpl.
    destruct e; try reflexivity. now elim (Hexit code).
  - intros prog path v H Hv.
    rewrite (@main_not_iterable prog path v H Hv).
    repeat split.
Qed.
End BootstrapProperties.

Lemma bootstrap_failure_modes_witness :
  exits_with_message 1
    "Usage: python get_gdrive_token.py <path-to-credentials.json>"
    (main (fun _ => inl FileNotFoundError) (fun _ _ => ret tt)
       ["get_gdrive_token.py"])
  /\ exits_with_message 1 "Error: Could not find credentials file: creds.json"
       (main (fun _ => inl FileNotFoundError) (fun _ _ => ret tt)
          ["get_gdrive_token.py"; "creds.json"])
  /\ exits_with_message 1 "Error: Invalid credentials file format"
       (main (fun _ => inr (PDict [("client_id", PStr "x")])) (fun _ _ => ret tt)
          ["get_gdrive_token.py"; "creds.json"])
  /\ outcome (main (fun _ => inl JSONDecodeError) (fun _ _ => ret tt)
                ["get_gdrive_token.py"; "creds.json"])
     = inl JSONDecodeError.
Proof.
  split; [|split; [|split]].
  - apply (proj1 (bootstrap_failure_modes (fun _ => inl FileNotFoundError)
                    (fun _ _ => ret tt))).
    simpl. lia.
  - apply (proj1 (proj2 (bootstrap_failure_modes (fun _ => inl FileNotFoundError)
                           (fun _ _ => ret tt)))
             "get_gdrive_token.py" "creds.json" eq_refl).
  - apply (proj1 (proj2 (proj2 (bootstrap_failure_modes
                                  (fun _ => inr (PDict [("client_id", PStr "x")]))
                                  (fun _ _ => ret tt))))
             "get_gdrive_token.py" "creds.json" [("client_id", PStr "x")] eq_refl).
    + simpl. intuition discriminate.
    + simpl. intuition discriminate.
  - apply (proj1 (proj2 (proj2 (proj2 (bootstrap_failure_modes
                                  (fun _ => inl JSONDecodeError)
                                  (fun _ _ => ret tt)))))
             "get_gdrive_token.py" "creds.json" JSONDecodeError eq_refl).
    + discriminate.
    + discriminate.
Defined.

(** C9 as the specification states it fails: when the file exists but does
    not parse, the process still ends with status 1, but the script prints
    no message that explains the failure: the decoding error is left
    uncaught. *)
Lemma bootstrap_parse_error_uncaught :
  ~ (forall load_json authorize prog path e,
       load_json path = inl e ->
       exit_status (main load_json authorize [prog; path]) = 1
       /\ reports_failure (main load_json authorize [prog; path]) = true).
Proof.
  intros H.
  destruct (H (fun _ => inl JSONDecodeError) (fun _ _ => ret tt)
              "get_gdrive_token.py" "creds.json" JSONDecodeError eq_refl)
    as [_ Hmessage].
  vm_compute in Hmessage. discriminate.
Qed.

(* ================================================================== *)
(** * Properties of the configuration and of [get_client] *)
(* ================================================================== *)

Lemma field_truthy_iff field : field_truthy field = true <-> is_set field.
Proof.
  unfold is_set. destruct field as [s|]; simpl.
  - rewrite negb_true_iff, String.eqb_neq. split.
    + intros H. now exists s.
    + intros (v & E & H). now injection E as ->.
  - split; [discriminate|]. intros (v & E & _). discriminate.
Qed.

Lemma substring_0_length n s :
  String.length (substring 0 n s) = Nat.min n (String.length s).
Proof.
  revert s. induction n as [|n IH]; intros [|c s]; simpl; trivial.
  now rewrite IH.
Qed.

Lemma substring_0_split n s :
  s = substring 0 n s ++ substring n (String.length s - n) s.
Proof.
  revert s. induction n as [|n IH]; intros [|c s]; simpl; trivial.
  - f_equal. clear. induction s as [|c s IH]; simpl; [reflexivity|].
    now rewrite <- IH.
  - f_equal. apply IH.
Qed.

Lemma substring_0_all n s : (String.length s <= n)%nat -> substring 0 n s = s.
Proof.
  revert s. induction n as [|n IH]; intros [|c s] H; simpl in *; trivial.
  - lia.
  - f_equal. apply IH. lia.
Qed.

(** X1: the Google Drive group loaded from the environment is configured
    exactly when the four variables GDRIVE_CLIENT_ID, GDRIVE_CLIENT_SECRET,
    GDRIVE_REFRESH_TOKEN and GDRIVE_FOLDER_ID are all set to non-empty
    strings; the e-mail group exactly when GMAIL_ADDRESS, GMAIL_APP_PASSWORD
    and RECIPIENT_EMAIL are. *)
Theorem is_configured_iff_variables_set (env : Env) :
  (config.gdrive_is_configured (config.gdrive (config.load env)) = true
   <-> is_set (env "GDRIVE_CLIENT_ID") /\ is_set (env "GDRIVE_CLIENT_SECRET")
       /\ is_set (env "GDRIVE_REFRESH_TOKEN") /\ is_set (env "GDRIVE_FOLDER_ID"))
  /\ (config.email_is_configured (config.email (config.load env)) = true
      <-> is_set (env "GMAIL_ADDRESS") /\ is_set (env "GMAIL_APP_PASSWORD")
          /\ is_set (env "RECIPIENT_EMAIL")).
Proof.
  unfold config.gdrive_is_configured, config.email_is_configured. simpl.
  rewrite !andb_true_iff, !field_truthy_iff. tauto.
Qed.

(** X2: [set_recipient_email] replaces the recipient and nothing else: the
    sender address, the password and the three other groups are kept, the
    last of two overrides wins, and afterwards the e-mail group is
    configured exactly when the address and the password are set and the
    new recipient is not the empty string. *)
Theorem set_recipient_email_overrides (value : string) (g : config.globals) :
  let g' := config.set_recipient_email value g in
  config.recipient_email (config.email g') = Some value
  /\ config.gmail_address (config.email g') = config.gmail_address (config.email g)
  /\ config.gmail_app_password (config.email g')
     = config.gmail_app_password (config.email g)
  /\ config.app g' = config.app g
  /\ config.splitwise g' = config.splitwise g
  /\ config.gdrive g' = config.gdrive g
  /\ (forall earlier,
        config.set_recipient_email value (config.set_recipient_email earlier g) = g')
  /\ (config.email_is_configured (config.email g') = true
      <-> is_set (config.gmail_address (config.email g))
          /\ is_set (config.gmail_app_password (config.email g))
          /\ value <> "").
Proof.
  simpl. do 6 (split; [reflexivity|]). split; [reflexivity|].
  unfold config.email_is_configured. simpl.
  rewrite !andb_true_iff, !field_truthy_iff, negb_true_iff, String.eqb_neq.
  tauto.
Qed.

(** X3: with the configuration loaded from the environment, [get_client]
    raises ValueError, printing nothing, exactly when the variable api_key
    is unset or empty; otherwise it returns a client that carries the whole
    key and prints one line that shows the first eight characters of the key
    and no other: a key of eight characters or fewer is printed in full. *)
Theorem get_client_requires_api_key (env : Env) :
  let run := get_client (config.splitwise (config.load env)) in
  (run = ([], inl (ValueError "Missing api_key environment variable"))
   <-> env "api_key" = None \/ env "api_key" = Some "")
  /\ (forall key,
        env "api_key" = Some key -> key <> "" ->
        exists shown hidden,
          run = (["Connecting to Splitwise with API key: " ++ shown ++ "..."],
                 inr (mkSplitwise "" "" key))
          /\ key = shown ++ hidden
          /\ String.length shown = Nat.min 8 (String.length key)
          /\ ((String.length key <= 8)%nat -> shown = key)).
Proof.
  unfold get_client. simpl. unfold getenv_default.
  destruct (env "api_key") as [key|] eqn:E; simpl.
  - destruct (String.eqb key "") eqn:Hk.
    + apply String.eqb_eq in Hk. subst key. split.
      * split; auto.
      * intros key E' Hne. now injection E' as <-.
    + split.
      * split; [discriminate|].
        intros [H|H]; [discriminate|]. injection H as ->. discriminate.
      * intros key' E' _. injection E' as <-.
        exists (substring 0 8 key), (substring 8 (String.length key - 8) key).
        split; [reflexivity|]. split; [apply substring_0_split|].
        split; [apply substring_0_length | apply substring_0_all].
  - split.
    + split; auto.
    + intros key E' _. discriminate.
Qed.

Lemma get_client_requires_api_key_witness :
  get_client
    (config.splitwise
       (config.load (fun k => if String.eqb k "api_key"
                              then Some "abcdefghijklmnop" else None)))
  = (["Connecting to Splitwise with API key: abcdefgh..."],
     inr (mkSplitwise "" "" "abcdefghijklmnop")).
Proof.
  destruct (get_client_requires_api_key
              (fun k => if String.eqb k "api_key"
                        then Some "abcdefghijklmnop" else None))
    as [_ H].
  destruct (H "abcdefghijklmnop" eq_refl ltac:(discriminate))
    as (shown & hidden & Hrun & Hkey & Hlen & _).
  rewrite Hrun. clear Hrun H.
  assert (shown = "abcdefgh").
  { destruct shown as [|c1 [|c2 [|c3 [|c4 [|c5 [|c6 [|c7 [|c8 [|c9 s]]]]]]]]];
      simpl in Hlen; try discriminate.
    simpl in Hkey. now injection Hkey as <- <- <- <- <- <- <- <- _. }
  subst shown. reflexivity.
Defined.

(* ================================================================== *)
(** * Further properties of the serialisation and of the fetch *)
(* ================================================================== *)

Lemma assoc_map_values {A B} (f : A -> B) k (l : list (string * A)) :
  assoc k (map (fun kv => (fst kv, f (snd kv))) l) = option_map f (assoc k l).
Proof.
  induction l as [|[k' v] tl IH]; simpl; [reflexivity|].
  now destruct (String.eqb k k').
Qed.

(** X4: serialising is idempotent, and a value that is already a tree of
    primitives, lists and dictionaries is returned as it is. *)
Theorem serialize_object_idempotent :
  (forall v, _serialize_object (_serialize_object v) = _serialize_object v)
  /\ (forall v, json_friendly v = true -> _serialize_object v = v).
Proof.
  split.
  - intros v. apply serialize_fixes_json_friendly, serialize_json_friendly.
  - apply serialize_fixes_json_friendly.
Qed.

(** X5: on a serialised category the name is never lost: whether the
    category was an instance or a mapping, extraction after serialisation
    yields the serialised value of its name, also when that name is the
    empty string, and None when there is no name. *)
Theorem extract_category_name_after_serialize py entries :
  let name_of := match assoc "name" entries with
                 | Some name => _serialize_object name
                 | None => PNone
                 end in
  _extract_category_name py (_serialize_object (PObject entries)) = name_of
  /\ _extract_category_name py (_serialize_object (PDict entries)) = name_of.
Proof.
  simpl. unfold _extract_category_name, extract_category_name_body, dict_get.
  cbn. rewrite assoc_map_values. now destruct (assoc "name" entries).
Qed.

Section FetchReturns.
Variable Conn : Type.
Variable getExpenses : Conn -> request -> list Expense * Conn.
Variable config_group_id : string.

Local Abbreviation request_at := (request_at config_group_id).
Local Abbreviation page_at := (page getExpenses config_group_id).
Local Abbreviation before := (conn_before getExpenses config_group_id).
Local Abbreviation loop := (fetch_loop getExpenses config_group_id).

(** A loop that returns has met its first empty page within its fuel. *)
Lemma fetch_loop_returns c fuel :
  forall k all_expenses log result,
    loop fuel (before k c) (BATCH_SIZE * Z.of_nat k) all_expenses log = Some result ->
    exists d, (d < fuel)%nat
              /\ (forall j, (k <= j < k + d)%nat -> page_at j c <> [])
              /\ page_at (k + d) c = [].
Proof.
  induction fuel as [|fuel IH]; intros k all_expenses log result H.
  - discriminate.
  - cbn [fetch_loop] in H. fold (request_at k) in H.
    rewrite getExpenses_at in H.
    destruct (page_at k c) as [|x batch] eqn:Hpage.
    + exists 0%nat. rewrite Nat.add_0_r. repeat split; trivial; lia.
    + rewrite offset_step in H. apply (IH (S k)) in H.
      destruct H as (d & Hd & Hfull & Hlast).
      exists (S d). split; [lia|]. split.
      * intros j Hj. destruct (Nat.eq_dec j k) as [->|Hne].
        -- rewrite Hpage. discriminate.
        -- apply Hfull. lia.
      * now rewrite Nat.add_succ_r.
Qed.

(** X6: whenever the fetch returns, it has stopped on the first empty page:
    for some n below the fuel the pages of requests 0 .. n-1 were not empty
    and the page of request n was; the requests issued are exactly those
    n+1 requests, each with limit 100, the visible flag and the configured
    group (none when the configured group is the empty string), and the
    table holds the serialised records of pages 0 .. n-1, one row each. *)
Theorem get_raw_expenses_returns (fuel : nat) (c : Conn) df log c' :
  get_raw_expenses getExpenses config_group_id fuel c = Some (df, log, c') ->
  exists n,
    (n < fuel)%nat
    /\ (forall k, (k < n)%nat -> page_at k c <> [])
    /\ page_at n c = []
    /\ log = map request_at (seq 0 (S n))
    /\ Forall (fun r => limit r = 100 /\ visible r = true
                        /\ group_id r = if String.eqb config_group_id ""
                                        then None else Some config_group_id) log
    /\ df = pd_DataFrame
              (map serialized_record
                 (List.concat (map (fun k => page_at k c) (seq 0 n))))
    /\ len df = List.length (List.concat (map (fun k => page_at k c) (seq 0 n)))
    /\ c' = before (S n) c.
Proof.
  unfold get_raw_expenses. intros H.
  destruct (loop fuel c 0 [] []) as [[[all_expenses log0] c0]|] eqn:Hloop;
    [|discriminate].
  injection H as <- <- <-.
  change 0 with (BATCH_SIZE * Z.of_nat 0) in Hloop.
  change c with (before 0 c) in Hloop at 1.
  destruct (fetch_loop_returns _ _ _ _ _ Hloop) as (n & Hn & Hfull & Hlast).
  rewrite (@fetch_loop_runs _ getExpenses config_group_id c n 0 fuel [] [])
    in Hloop; trivial.
  injection Hloop as <- <- <-. cbn [app].
  exists n. split; [assumption|]. split; [intros k Hk; apply Hfull; lia|].
  split; [assumption|]. split; [reflexivity|]. split; [|split; [|split]].
  - apply Forall_forall. intros r Hr.
    change (In r (map request_at (seq 0 (S n)))) in Hr.
    apply in_map_iff in Hr. destruct Hr as (k & <- & _). now repeat split.
  - now rewrite map_map.
  - rewrite len_pd_DataFrame. now rewrite !length_map.
  - reflexivity.
Qed.

(** X7: against a source that never returns an empty page the fetch never
    returns, whatever the number of requests it is allowed. *)
Theorem get_raw_expenses_never_returns (c : Conn) :
  (forall k, page_at k c <> []) ->
  forall fuel, get_raw_expenses getExpenses config_group_id fuel c = None.
Proof.
  intros Hfull fuel. unfold get_raw_expenses.
  change 0 with (BATCH_SIZE * Z.of_nat 0).
  change c with (before 0 c) at 1.
  rewrite (@fetch_loop_still_running _ getExpenses config_group_id c fuel 0 fuel [] []);
    auto.
Qed.
End FetchReturns.

Lemma get_raw_expenses_returns_witness :
  exists df log c',
    get_raw_expenses queue_getExpenses "42" 10 fake_pages = Some (df, log, c')
    /\ map offset log = [0; 100; 200; 300]
    /\ Forall (fun r => group_id r = Some "42") log
    /\ len df = 237%nat.
Proof.
  destruct (get_raw_expenses queue_getExpenses "42" 10 fake_pages)
    as [[[df log] c']|] eqn:Hrun; [|vm_compute in Hrun; discriminate].
  destruct (@get_raw_expenses_returns _ queue_getExpenses "42" 10 fake_pages
              df log c' Hrun) as (n & _ & _ & _ & _ & _ & _ & _ & _).
  exists df, log, c'. split; [reflexivity|].
  vm_compute in Hrun. injection Hrun as <- <- <-.
  split; [reflexivity|]. split; [|reflexivity].
  repeat constructor.
Defined.

Lemma stuck_source_pages c k :
  conn_before stuck_getExpenses "" k c = c
  /\ page stuck_getExpenses "" k c = firstn 100 c.
Proof.
  induction k as [|k [IHc _]]; simpl.
  - split; reflexivity.
  - rewrite IHc. unfold page. simpl. rewrite IHc. split; reflexivity.
Qed.

Lemma get_raw_expenses_never_returns_witness :
  get_raw_expenses stuck_getExpenses "" 50 [expense_numbered 0] = None.
Proof.
  apply get_raw_expenses_never_returns.
  intros k. rewrite (proj2 (stuck_source_pages [expense_numbered 0] k)).
  discriminate.
Defined.

(* ================================================================== *)
(** * Further properties of the transform *)
(* ================================================================== *)

Lemma subseq_refl {A} (l : list A) : subseq l l.
Proof. induction l; [constructor | now apply subseq_keep]. Qed.

Lemma subseq_trans {A} (l1 l2 l3 : list A) :
  subseq l1 l2 -> subseq l2 l3 -> subseq l1 l3.
Proof.
  intros H12 H23. revert l1 H12.
  induction H23 as [|x l2 l3 _ IH|x l2 l3 _ IH]; intros l1 H12.
  - assumption.
  - apply subseq_skip. now apply IH.
  - inversion H12; subst.
    + apply subseq_skip. now apply IH.
    + apply subseq_keep. now apply IH.
Qed.

Lemma subseq_map_filter {A B} (f : A -> B) (p : A -> bool) l :
  subseq (map f (filter p l)) (map f l).
Proof.
  induction l as [|x tl IH]; simpl; [constructor|].
  destruct (p x); simpl; [apply subseq_keep | apply subseq_skip]; assumption.
Qed.

Lemma labels_loc_mask_subseq (p : cell -> bool) c df :
  subseq (map label (rows (loc_mask (map p (col c df)) df))) (map label (rows df)).
Proof. rewrite rows_loc_mask. apply subseq_map_filter. Qed.

Lemma labels_after_filter_subseq df :
  subseq (map label (rows (after_filter df))) (map label (rows df)).
Proof.
  unfold after_filter. destruct (in_columns "payment" df).
  - apply labels_loc_mask_subseq.
  - apply subseq_refl.
Qed.

Lemma labels_parse_dates_subseq pd df :
  subseq (map label (rows (parse_dates pd df))) (map label (rows df)).
Proof.
  unfold parse_dates. destruct (in_columns "date" df); [|apply subseq_refl].
  eapply subseq_trans; [apply labels_loc_mask_subseq|].
  rewrite labels_set_column; [apply subseq_refl|].
  rewrite length_map, to_datetime_length. unfold col. apply length_map.
Qed.

Lemma labels_parse_costs_subseq pd df :
  subseq (map label (rows (parse_costs pd df))) (map label (rows df)).
Proof.
  unfold parse_costs. destruct (in_columns "cost" df); [|apply subseq_refl].
  eapply subseq_trans; [apply labels_loc_mask_subseq|].
  rewrite labels_set_column; [apply subseq_refl|].
  rewrite length_map, to_numeric_length. unfold col. apply length_map.
Qed.

Lemma labels_extract_categories py df :
  map label (rows (extract_categories py df)) = map label (rows df).
Proof.
  unfold extract_categories. destruct (in_columns "category" df); [|reflexivity].
  apply labels_set_column. unfold col. now rewrite !length_map.
Qed.

Lemma labels_select_wanted df :
  map label (rows (select_wanted df)) = map label (rows df).
Proof. unfold select_wanted, select. simpl. now rewrite map_map. Qed.

Lemma labels_with_month_columns l :
  map label (map with_month_columns l) = map label l.
Proof. now rewrite map_map. Qed.

Lemma labels_prepared_subseq py pd raw_df :
  subseq (map label (rows (prepared py pd raw_df))) (map label (rows raw_df)).
Proof.
  unfold prepared. rewrite labels_select_wanted, labels_extract_categories.
  eapply subseq_trans; [apply labels_parse_costs_subseq|].
  eapply subseq_trans; [apply labels_parse_dates_subseq|].
  apply labels_after_filter_subseq.
Qed.

(** The run of the transform, case by case. *)
Lemma process_for_dashboard_cases py pd raw_df :
  (df_empty raw_df = true
   /\ outcome (process_for_dashboard py pd raw_df) = inr raw_df)
  \/ (df_empty raw_df = false /\ in_columns "date" raw_df = false
      /\ outcome (process_for_dashboard py pd raw_df) = inl (KeyError "date"))
  \/ (df_empty raw_df = false /\ in_columns "date" raw_df = true
      /\ exists out, outcome (process_for_dashboard py pd raw_df) = inr out
                     /\ rows out = map with_month_columns (rows (prepared py pd raw_df))).
Proof.
  destruct (df_empty raw_df) eqn:He.
  - left. split; [reflexivity|]. unfold process_for_dashboard. now rewrite He.
  - right. destruct (in_columns "date" raw_df) eqn:Hd.
    + right. split; [reflexivity|]. split; [reflexivity|].
      now apply process_for_dashboard_with_date.
    + left. split; [reflexivity|]. split; [reflexivity|].
      now apply process_for_dashboard_without_date.
Qed.

(** X9: the records of the output are records of the input in their
    original order: the labels of the output are the labels of the input
    with some of them left out. *)
Theorem process_for_dashboard_preserves_order py pd raw_df out :
  outcome (process_for_dashboard py pd raw_df) = inr out ->
  subseq (map label (rows out)) (map label (rows raw_df)).
Proof.
  intros Hout.
  destruct (process_for_dashboard_cases py pd raw_df)
    as [(He & Ho)|[(He & Hd & Ho)|(He & Hd & out' & Ho & Hrows)]];
    rewrite Ho in Hout.
  - injection Hout as <-. apply subseq_refl.
  - discriminate.
  - injection Hout as <-. rewrite Hrows, labels_with_month_columns.
    apply labels_prepared_subseq.
Qed.

Lemma process_for_dashboard_preserves_order_witness :
  exists out,
    outcome (process_for_dashboard plain_objects pandas_reference mixed_records) = inr out
    /\ subseq (map label (rows out)) [0; 1; 2; 3; 4; 5]%nat.
Proof.
  destruct (@process_for_dashboard_succeeds plain_objects pandas_reference mixed_records eq_refl)
    as [out Hout].
  exists out. split; [assumption|].
  apply (@process_for_dashboard_preserves_order plain_objects pandas_reference mixed_records out
           Hout).
Defined.


Lemma in_columns_extract_categories_any py c df :
  in_columns c (extract_categories py df)
  = in_columns c df || (String.eqb c "category_name" && in_columns "category" df).
Proof.
  unfold extract_categories. destruct (in_columns "category" df).
  - rewrite in_columns_set_column. now rewrite andb_true_r.
  - now rewrite andb_false_r, orb_false_r.
Qed.

Lemma outcome_add_month_columns_columns df df' :
  outcome (add_month_columns df) = inr df' ->
  columns df' = columns (set_column "month_str" [] (set_column "month" [] df)).
Proof.
  unfold add_month_columns, getitem.
  destruct (in_columns "date" df); [|discriminate].
  rewrite bind_ret. unfold dt.
  destruct (all_datetimes (col "date" df)) as [d|]; [|discriminate].
  rewrite bind_ret.
  match goal with
  | |- context [in_columns "month" ?x] => destruct (in_columns "month" x)
  end; [|discriminate].
  rewrite bind_ret.
  match goal with
  | |- context [all_datetimes ?l] => destruct (all_datetimes l)
  end; [|discriminate].
  intros H. injection H as <-. reflexivity.
Qed.

Lemma wanted_cols_prepared py pd raw_df :
  columns (prepared py pd raw_df)
  = filter (fun c => in_columns c raw_df
                     || (String.eqb c "category_name" && in_columns "category" raw_df))
      dashboard_columns.
Proof.
  unfold prepared, select_wanted, select, wanted_cols. cbn [columns].
  apply filter_ext. intros c.
  rewrite in_columns_extract_categories_any.
  now rewrite !in_columns_parse_costs, !in_columns_parse_dates,
    !in_columns_after_filter.
Qed.

(** X10: the output of the transform on a table that is not empty has the
    columns of the dashboard list that the input has (category_name when the
    input has a category column), in the order of that list, followed by
    month and month_str; no column appears twice, and the payment and
    category columns are never part of the output. *)
Theorem process_for_dashboard_columns py pd raw_df out :
  df_empty raw_df = false ->
  outcome (process_for_dashboard py pd raw_df) = inr out ->
  columns out
  = (filter (fun c => in_columns c raw_df
                      || (String.eqb c "category_name"
                          && in_columns "category" raw_df))
       dashboard_columns
     ++ ["month"; "month_str"])%list
  /\ NoDup (columns out)
  /\ ~ In "payment" (columns out)
  /\ ~ In "category" (columns out).
Proof.
  intros He Hout.
  destruct (process_for_dashboard_run py pd raw_df He) as [_ Hrun].
  rewrite Hrun in Hout. apply outcome_add_month_columns_columns in Hout.
  assert (Hcols : columns out
                  = (columns (prepared py pd raw_df) ++ ["month"; "month_str"])%list).
  { rewrite Hout. unfold set_column at 1. cbn [columns].
    rewrite in_columns_set_column.
    assert (Hm : forall c, ~ In c dashboard_columns ->
                           in_columns c (prepared py pd raw_df) = false).
    { intros c Hc. unfold in_columns. rewrite wanted_cols_prepared.
      rewrite existsb_eqb_filter, (existsb_eqb_not_in _ _ Hc). reflexivity. }
    rewrite (Hm "month_str") by (simpl; intuition discriminate).
    cbn [orb String.eqb Ascii.eqb Bool.eqb andb].
    unfold set_column. cbn [columns].
    rewrite (Hm "month") by (simpl; intuition discriminate).
    now rewrite <- app_assoc. }
  rewrite Hcols, wanted_cols_prepared.
  set (kept := filter _ dashboard_columns).
  assert (Hin : forall c, In c kept -> In c dashboard_columns).
  { intros c Hc. unfold kept in Hc. apply filter_In in Hc. tauto. }
  split; [reflexivity|]. split; [|split].
  - apply NoDup_app.
    + apply NoDup_filter. unfold dashboard_columns.
      repeat constructor; simpl; intuition discriminate.
    + repeat constructor; simpl; intuition discriminate.
    + intros c Hc Hc'. apply Hin in Hc. simpl in Hc, Hc'.
      intuition (subst; discriminate).
  - intros H. apply in_app_or in H. destruct H as [H|H].
    + apply Hin in H. simpl in H. intuition discriminate.
    + simpl in H. intuition discriminate.
  - intros H. apply in_app_or in H. destruct H as [H|H].
    + apply Hin in H. simpl in H. intuition discriminate.
    + simpl in H. intuition discriminate.
Qed.

Lemma process_for_dashboard_columns_witness :
  exists out,
    outcome (process_for_dashboard plain_objects pandas_reference two_records) = inr out
    /\ columns out = ["cost"; "date"; "category_name"; "month"; "month_str"].
Proof.
  destruct (@process_for_dashboard_succeeds plain_objects pandas_reference two_records eq_refl)
    as [out Hout].
  exists out. split; [assumption|].
  destruct (@process_for_dashboard_columns plain_objects pandas_reference two_records out
              eq_refl Hout) as (Hcols & _).
  rewrite Hcols. reflexivity.
Defined.


Lemma col_set_column_other c c' values df :
  c' <> c -> List.length values = List.length (rows df) ->
  col c' (set_column c values df) = col c' df.
Proof.
  intros Hne. unfold col, set_column. cbn [rows]. rewrite map_map.
  revert values. induction (rows df) as [|r tl IH]; intros [|v values] Hlen;
    simpl in *; try discriminate; try reflexivity.
  rewrite get_set_cell_other by assumption. f_equal. apply IH. lia.
Qed.

Lemma after_filter_all df :
  Forall (fun r => eq_False (get "payment" r) = true) (rows df) ->
  after_filter df = df.
Proof.
  intros Hall. unfold after_filter. destruct (in_columns "payment" df); trivial.
  unfold expenses_only.
  assert (H : rows (loc_mask (map eq_False (col "payment" df)) df) = rows df)
    by (rewrite rows_loc_mask; now apply filter_all).
  destruct df as [cols rws]. unfold loc_mask in *. cbn [columns rows] in *.
  now rewrite H.
Qed.

(** When every date parses, the date step changes the date column only. *)
Lemma col_parse_dates_other pd c df :
  c <> "date" ->
  Forall (fun d => d <> None) (to_datetime pd (col "date" df)) ->
  col c (parse_dates pd df) = col c df.
Proof.
  intros Hne Hall. unfold parse_dates.
  destruct (in_columns "date" df); [|reflexivity].
  unfold col at 1. rewrite rows_loc_mask, filter_all.
  - apply col_set_column_other; [assumption|].
    rewrite length_map, to_datetime_length. unfold col. apply length_map.
  - apply Forall_forall. intros r' Hr'.
    apply in_rows_set_column in Hr'. destruct Hr' as (r & v & _ & Hv & ->).
    rewrite get_set_cell_same.
    apply in_map_iff in Hv. destruct Hv as (d & <- & Hd).
    rewrite Forall_forall in Hall. specialize (Hall d Hd).
    destruct d; [reflexivity|congruence].
Qed.

(** X11: no valid expense is lost.  On a table with a date column in which
    every payment flag compares equal to False, every date parses and every
    cost parses, the transform succeeds and its output has one record for
    each record of the input, in the same order. *)
Theorem process_for_dashboard_keeps_valid_rows py pd raw_df :
  in_columns "date" raw_df = true ->
  Forall (fun r => eq_False (get "payment" r) = true) (rows raw_df) ->
  Forall (fun d => d <> None) (to_datetime pd (col "date" raw_df)) ->
  Forall (fun x => isna (cell_of_number x) = false)
    (to_numeric pd (col "cost" raw_df)) ->
  exists out,
    outcome (process_for_dashboard py pd raw_df) = inr out
    /\ map label (rows out) = map label (rows raw_df).
Proof.
  intros Hd Hflags Hdates Hcosts.
  destruct (process_for_dashboard_cases py pd raw_df)
    as [(He & Ho)|[(He & Hd' & Ho)|(He & _ & out & Ho & Hrows)]].
  - now exists raw_df.
  - congruence.
  - exists out. split; [assumption|].
    rewrite Hrows, labels_with_month_columns. unfold prepared.
    rewrite labels_select_wanted, labels_extract_categories.
    rewrite (after_filter_all _ Hflags).
    rewrite parse_costs_keeps_parsed.
    + now apply parse_dates_keeps_parsed.
    + rewrite col_parse_dates_other; [assumption|discriminate|assumption].
Qed.

Lemma process_for_dashboard_keeps_valid_rows_witness :
  exists out,
    outcome (process_for_dashboard plain_objects pandas_reference
               (pd_DataFrame
                  [[("payment", PBool false); ("cost", PStr "12");
                    ("date", PStr "2024-03-17")];
                   [("payment", PBool false); ("cost", PInt 7);
                    ("date", PStr "2024-02-29")]])) = inr out
    /\ map label (rows out) = [0; 1]%nat.
Proof.
  apply process_for_dashboard_keeps_valid_rows.
  - reflexivity.
  - vm_compute. repeat constructor.
  - vm_compute. repeat constructor; discriminate.
  - vm_compute. repeat constructor.
Defined.

(** Where the cells of a prepared row come from. *)
Lemma in_rows_prepared_cells py pd raw_df r' :
  In r' (rows (prepared py pd raw_df)) ->
  exists r0, In r0 (rows raw_df) /\ label r' = label r0
    /\ (forall c, In c ["id"; "description"; "currency_code"] ->
                  in_columns c raw_df = true -> get c r' = get c r0)
    /\ (in_columns "category" raw_df = true ->
        get "category_name" r' = category_name_cell py (get "category" r0)).
Proof.
  unfold prepared. intros H.
  apply in_rows_select_wanted in H. destruct H as (r4 & H & L4 & G4).
  pose proof (in_rows_extract_categories _ _ _ H) as (r3 & H3 & L3 & G3 & N3).
  pose proof (in_rows_parse_costs _ _ _ H3) as (r2 & H2 & L2 & G2 & _).
  pose proof (in_rows_parse_dates _ _ _ H2) as (r1 & H1 & L1 & G1 & _).
  apply in_rows_after_filter in H1. destruct H1 as [H0 _].
  exists r1. split; [assumption|]. split; [congruence|]. split.
  - intros c Hc Hin.
    assert (Hc' : c <> "category_name" /\ c <> "cost" /\ c <> "date").
    { simpl in Hc. intuition (subst; discriminate). }
    destruct Hc' as (Hn1 & Hn2 & Hn3).
    rewrite G4, G3, G2, G1; trivial.
    apply in_wanted_cols. split.
    + simpl in *. tauto.
    + rewrite in_columns_extract_categories by assumption.
      now rewrite in_columns_parse_costs, in_columns_parse_dates,
        in_columns_after_filter.
  - intros Hcat.
    assert (Hcat3 : in_columns "category"
                      (parse_costs pd (parse_dates pd (after_filter raw_df))) = true)
      by now rewrite in_columns_parse_costs, in_columns_parse_dates,
           in_columns_after_filter.
    rewrite G4.
    + rewrite (N3 Hcat3), G2, G1 by discriminate. reflexivity.
    + apply in_wanted_cols. split; [simpl; tauto|].
      rewrite in_columns_extract_categories_any, Hcat3. apply orb_true_r.
Qed.

(** X12: the transform copies what it does not parse.  Every record of the
    output has the label of an input record whose id, description and
    currency_code it carries unchanged (for those of the three columns the
    input has), and, when the input has a category column, its
    category_name is what [_extract_category_name] returns for that record's
    category (the name a mapping holds, the truthy name an object of any
    class exposes, None otherwise), whatever a category_name column of the
    input held. *)
Theorem process_for_dashboard_copies_fields py pd raw_df out :
  outcome (process_for_dashboard py pd raw_df) = inr out ->
  forall r, In r (rows out) ->
    exists r0, In r0 (rows raw_df) /\ label r0 = label r
      /\ (forall c, In c ["id"; "description"; "currency_code"] ->
                    in_columns c raw_df = true -> get c r = get c r0)
      /\ (in_columns "category" raw_df = true ->
          get "category_name" r = category_name_cell py (get "category" r0)).
Proof.
  intros Hout r Hr.
  destruct (columns raw_df) as [|c0 cs] eqn:Hcols.
  - assert (He : df_empty raw_df = true).
    { unfold df_empty. now rewrite Hcols. }
    unfold process_for_dashboard in Hout. rewrite He in Hout.
    injection Hout as <-.
    exists r. split; [assumption|]. split; [reflexivity|]. split.
    + reflexivity.
    + unfold in_columns. rewrite Hcols. discriminate.
  - assert (Hne : columns raw_df <> []) by (rewrite Hcols; discriminate).
    destruct (@in_rows_output py pd raw_df out r Hout Hne Hr)
      as (_ & r' & Hr' & ->).
    apply in_rows_prepared_cells in Hr'.
    destruct Hr' as (r0 & H0 & L0 & Hcopy & Hcat).
    exists r0. split; [assumption|]. split; [now rewrite <- L0|]. split.
    + intros c Hc Hin. rewrite get_with_month_columns.
      * now apply Hcopy.
      * simpl in Hc. intuition (subst; discriminate).
      * simpl in Hc. intuition (subst; discriminate).
    + intros Hin. rewrite get_with_month_columns by discriminate. now apply Hcat.
Qed.

Lemma process_for_dashboard_copies_fields_witness :
  exists out r,
    outcome (process_for_dashboard classy_objects pandas_reference tuple_record)
    = inr out
    /\ rows out = [r]
    /\ get "id" r = CObj (PInt 7)
    /\ get "category_name" r = CObj (PStr "Food").
Proof.
  destruct (@process_for_dashboard_succeeds classy_objects pandas_reference
              tuple_record eq_refl) as [out Hout].
  pose proof (@process_for_dashboard_copies_fields classy_objects
                pandas_reference tuple_record out Hout) as Hall.
  exists out, (nth 0 (rows out) (mkRow 0 [])). split; [exact Hout|].
  vm_compute in Hout. injection Hout as <-.
  split; [reflexivity|].
  destruct (Hall _ (or_introl eq_refl)) as (r0 & H0 & L0 & Hcopy & Hcat).
  vm_compute in H0. destruct H0 as [<-|[]].
  split.
  - etransitivity; [exact (Hcopy "id" (or_introl eq_refl) eq_refl)|].
    reflexivity.
  - etransitivity; [exact (Hcat eq_refl)|]. reflexivity.
Defined.

(* ================================================================== *)
(** * Further properties of the bootstrap script *)
(* ================================================================== *)

Lemma assoc_Some_existsb {A} k (l : list (string * A)) v :
  assoc k l = Some v -> existsb (String.eqb k) (keys l) = true.
Proof.
  induction l as [|[k' v'] tl IH]; simpl; [discriminate|].
  destruct (String.eqb k k'); [reflexivity|]. exact IH.
Qed.

Lemma existsb_PStr_iff key items :
  existsb (fun v => match v with
                    | PStr s => String.eqb s key
                    | _ => false
                    end) items = true
  <-> In (PStr key) items.
Proof.
  rewrite existsb_exists. split.
  - intros (v & Hv & E). destruct v; try discriminate.
    apply String.eqb_eq in E. now subst.
  - intros H. exists (PStr key). split; [assumption | apply String.eqb_refl].
Qed.

Section BootstrapBlocks.
Variable load_json : string -> exn + pyval.
Variable authorize : string -> pyval -> M unit.

Local Abbreviation run := (main load_json authorize).

Lemma main_two_arguments prog path :
  run [prog; path] = get_refresh_token load_json authorize path.
Proof. reflexivity. Qed.

(** X13: when the credentials file parses to a JSON object, the script
    goes on with the block under installed whenever there is one, also when
    there is a web block as well, and with the block under web only when
    there is no installed key: after its banner the run is that of the
    rest of the function on that block. *)
Theorem installed_block_takes_precedence prog path entries :
  load_json path = inr (PDict entries) ->
  (forall block,
     assoc "installed" entries = Some block ->
     run [prog; path]
     = (banner :: stdout (authorize path block), outcome (authorize path block)))
  /\ (forall block,
        ~ In "installed" (keys entries) -> assoc "web" entries = Some block ->
        run [prog; path]
        = (banner :: stdout (authorize path block), outcome (authorize path block))).
Proof.
  intros H. rewrite main_two_arguments. unfold get_refresh_token.
  rewrite H, bind_print, bind_ret. cbn [py_contains]. split.
  - intros block Hb.
    rewrite (assoc_Some_existsb _ _ Hb), bind_ret.
    cbn [py_getitem]. rewrite Hb, bind_ret. reflexivity.
  - intros block Hi Hb.
    rewrite (existsb_eqb_not_in _ _ Hi), bind_ret.
    rewrite (assoc_Some_existsb _ _ Hb), bind_ret.
    cbn [py_getitem]. rewrite Hb, bind_ret. reflexivity.
Qed.

(** X14: a credentials file that parses to a JSON array or string is not
    rejected as such.  An array that has the element "installed" or "web",
    and a string that contains one of the two words, make the script stop
    on an uncaught TypeError after its banner; only an array or a string
    without them gets the message "Invalid credentials file format" and
    exit status 1. *)
Theorem array_or_string_credentials prog path :
  (forall items,
     load_json path = inr (PList items) ->
     In (PStr "installed") items \/ In (PStr "web") items ->
     run [prog; path] = ([banner], inl TypeError))
  /\ (forall items,
        load_json path = inr (PList items) ->
        ~ In (PStr "installed") items -> ~ In (PStr "web") items ->
        run [prog; path]
        = ([banner; "Error: Invalid credentials file format"], inl (SystemExit 1)))
  /\ (forall s,
        load_json path = inr (PStr s) ->
        index 0 "installed" s <> None \/ index 0 "web" s <> None ->
        run [prog; path] = ([banner], inl TypeError))
  /\ (forall s,
        load_json path = inr (PStr s) ->
        index 0 "installed" s = None -> index 0 "web" s = None ->
        run [prog; path]
        = ([banner; "Error: Invalid credentials file format"], inl (SystemExit 1))).
Proof.
  rewrite main_two_arguments. unfold get_refresh_token.
  split; [|split; [|split]].
  - intros items H Hin. rewrite H, bind_print, bind_ret. cbn [py_contains].
    destruct (existsb _ items) eqn:Ei; rewrite bind_ret.
    + reflexivity.
    + destruct Hin as [Hin|Hin].
      * apply existsb_PStr_iff in Hin. congruence.
      * apply existsb_PStr_iff in Hin. rewrite Hin, bind_ret. reflexivity.
  - intros items H Hi Hw. rewrite H, bind_print, bind_ret. cbn [py_contains].
    rewrite (proj1 (not_true_iff_false _)
               (fun E => Hi (proj1 (existsb_PStr_iff "installed" items) E))).
    rewrite bind_ret.
    rewrite (proj1 (not_true_iff_false _)
               (fun E => Hw (proj1 (existsb_PStr_iff "web" items) E))).
    rewrite bind_ret. reflexivity.
  - intros s H Hin. rewrite H, bind_print, bind_ret. cbn [py_contains].
    destruct (index 0 "installed" s) eqn:Ei; rewrite bind_ret.
    + reflexivity.
    + destruct Hin as [Hin|Hin]; [congruence|].
      destruct (index 0 "web" s); [|congruence].
      rewrite bind_ret. reflexivity.
  - intros s H Hi Hw. rewrite H, bind_print, bind_ret. cbn [py_contains].
    rewrite Hi, bind_ret, Hw, bind_ret. reflexivity.
Qed.
End BootstrapBlocks.

Lemma installed_block_takes_precedence_witness :
  main (fun _ => inr (PDict [("web", PStr "w"); ("installed", PStr "i")]))
       (fun _ block => match block with
                       | PStr s => print s
                       | _ => ret tt
                       end)
       ["get_gdrive_token.py"; "creds.json"]
  = ([banner; "i"], inr tt).
Proof.
  rewrite (proj1 (@installed_block_takes_precedence
                    (fun _ => inr (PDict [("web", PStr "w"); ("installed", PStr "i")]))
                    (fun _ block => match block with
                                    | PStr s => print s
                                    | _ => ret tt
                                    end)
                    "get_gdrive_token.py" "creds.json" _ eq_refl)
             (PStr "i") eq_refl).
  reflexivity.
Defined.

Lemma array_or_string_credentials_witness :
  main (fun _ => inr (PStr "not installed")) (fun _ _ => ret tt)
       ["get_gdrive_token.py"; "creds.json"]
  = ([banner], inl TypeError).
Proof.
  apply (proj1 (proj2 (proj2 (@array_or_string_credentials
                                (fun _ => inr (PStr "not installed"))
                                (fun _ _ => ret tt)
                                "get_gdrive_token.py" "creds.json")))
           "not installed" eq_refl).
  left. vm_compute. discriminate.
Defined.

Lemma assoc_None_existsb {A} k (l : list (string * A)) :
  assoc k l = None -> existsb (String.eqb k) (keys l) = false.
Proof.
  induction l as [|[k' v'] tl IH]; simpl; [reflexivity|].
  destruct (String.eqb k k'); [discriminate|]. exact IH.
Qed.

(** With a credentials object, the run is the banner followed by the rest
    of the function on the block chosen. *)
Lemma run_client_block load_json authorize prog path creds block :
  load_json path = inr (PDict creds) ->
  client_block creds = Some block ->
  main load_json authorize [prog; path]
  = (banner :: stdout (authorize path block), outcome (authorize path block)).
Proof.
  intros H Hb. rewrite main_two_arguments. unfold get_refresh_token.
  rewrite H, bind_print, bind_ret. cbn [py_contains].
  unfold client_block in Hb.
  destruct (assoc "installed" creds) as [b|] eqn:Ei.
  - injection Hb as ->.
    rewrite (assoc_Some_existsb _ _ Ei), bind_ret.
    cbn [py_getitem]. rewrite Ei, bind_ret. reflexivity.
  - rewrite (assoc_None_existsb _ _ Ei), bind_ret.
    rewrite (assoc_Some_existsb _ _ Hb), bind_ret.
    cbn [py_getitem]. rewrite Hb, bind_ret. reflexivity.
Qed.

Section AuthorizeProperties.
Variable load_json : string -> exn + pyval.
Variable py_str : pyval -> string.
Variable run_flow : string -> list string -> Z -> exn + pyval.

Local Abbreviation authorize := (authorize_and_report py_str run_flow).
Local Abbreviation script := (main load_json (authorize_and_report py_str run_flow)).

Ltac run_binds :=
  cbv [bind ret print raise fst snd py_slice_50 py_get_default py_getitem];
  cbn [app].

(** The rest of the function on a block with a string client id. *)
Lemma authorize_until_flow path entries cid :
  assoc "client_id" entries = Some (PStr cid) ->
  authorize path (PDict entries)
  = match run_flow path SCOPES 8080 with
    | inl e => (intro_lines py_str cid (project_of entries), inl e)
    | inr token =>
        match assoc "client_secret" entries with
        | None =>
            ((intro_lines py_str cid (project_of entries)
              ++ success_lines py_str cid)%list,
             inl (KeyError "client_secret"))
        | Some secret =>
            ((intro_lines py_str cid (project_of entries)
              ++ success_lines py_str cid
              ++ secret_lines py_str secret token
              ++ setup_lines)%list,
             inr tt)
        end
    end.
Proof.
  intros Hid. unfold authorize_and_report, project_of, intro_lines,
    success_lines, secret_lines, setup_lines.
  run_binds. rewrite Hid. run_binds.
  destruct (run_flow path SCOPES 8080) as [e|token]; run_binds; [reflexivity|].
  destruct (assoc "client_secret" entries) as [secret|]; run_binds; reflexivity.
Qed.

(** The rest of the function on a block that has no client id. *)
Lemma authorize_without_client_id path block :
  (forall entries, block = PDict entries -> assoc "client_id" entries = None) ->
  authorize path block
  = ([], inl (match block with
              | PDict _ => KeyError "client_id"
              | _ => TypeError
              end)).
Proof.
  intros Hb. unfold authorize_and_report.
  destruct block; try reflexivity.
  cbn [py_getitem]. rewrite (Hb _ eq_refl). reflexivity.
Qed.

(** X15: a credentials file whose installed (or web) block has no
    client_id, or is not a JSON object, is not reported as an invalid
    credentials file: after the banner alone the script stops on an uncaught
    KeyError (TypeError for a block that is no object), with exit status 1
    and without starting the browser flow, whatever that flow would do. *)
Theorem missing_client_id_is_uncaught prog path creds block :
  load_json path = inr (PDict creds) ->
  client_block creds = Some block ->
  (forall entries, block = PDict entries -> assoc "client_id" entries = None) ->
  stdout (script [prog; path]) = [banner]
  /\ outcome (script [prog; path])
     = inl (match block with
            | PDict _ => KeyError "client_id"
            | _ => TypeError
            end)
  /\ exit_status (script [prog; path]) = 1.
Proof.
  intros H Hb Hid.
  rewrite (@run_client_block load_json authorize prog path creds block H Hb).
  rewrite (authorize_without_client_id path Hid).
  split; [reflexivity|]. split; [reflexivity|].
  unfold exit_status. cbn [outcome snd]. destruct block; reflexivity.
Qed.

(** X16: the browser flow is started with the path given on the command
    line, the single scope drive.file and port 8080; when it fails, the
    exception leaves the script uncaught, and the output is the banner and
    the four introductory lines: none of the lines that show a secret has
    been printed. *)
Theorem flow_failure_is_uncaught prog path creds entries cid e :
  load_json path = inr (PDict creds) ->
  client_block creds = Some (PDict entries) ->
  assoc "client_id" entries = Some (PStr cid) ->
  run_flow path ["https://www.googleapis.com/auth/drive.file"] 8080 = inl e ->
  script [prog; path]
  = (banner :: intro_lines py_str cid (project_of entries), inl e).
Proof.
  intros H Hb Hid Hflow.
  rewrite (@run_client_block load_json authorize prog path creds _ H Hb).
  rewrite (authorize_until_flow path entries Hid).
  change SCOPES with ["https://www.googleapis.com/auth/drive.file"].
  rewrite Hflow. reflexivity.
Qed.

(** X17: when the block has a client id but no client_secret, the script
    runs the whole browser flow, prints that the authorization is complete
    and the client id, and then stops on an uncaught KeyError with exit
    status 1: the output does not depend on the refresh token obtained, which
    is never shown. *)
Theorem missing_client_secret_loses_token prog path creds entries cid token :
  load_json path = inr (PDict creds) ->
  client_block creds = Some (PDict entries) ->
  assoc "client_id" entries = Some (PStr cid) ->
  assoc "client_secret" entries = None ->
  run_flow path SCOPES 8080 = inr token ->
  stdout (script [prog; path])
  = (banner :: intro_lines py_str cid (project_of entries)
       ++ success_lines py_str cid)%list
  /\ In "SUCCESS! Authorization complete." (stdout (script [prog; path]))
  /\ outcome (script [prog; path]) = inl (KeyError "client_secret")
  /\ exit_status (script [prog; path]) = 1.
Proof.
  intros H Hb Hid Hsecret Hflow.
  rewrite (@run_client_block load_json authorize prog path creds _ H Hb).
  rewrite (authorize_until_flow path entries Hid), Hflow, Hsecret.
  split; [reflexivity|]. split; [|split; reflexivity].
  cbn [stdout fst]. right. apply in_or_app. right.
  unfold success_lines. cbn [In]. auto.
Qed.

(** X18: with a block that has a string client id and a client_secret, and
    a browser flow that returns a refresh token, the script ends normally
    with exit status 0.  Its output is the banner, the introductory lines,
    the success lines, the client secret, the refresh token and the closing
    instructions, in this order; the introductory line shows the first 50
    characters of the client id only, the secrets block all of it. *)
Theorem successful_run_prints_three_secrets prog path creds entries cid secret token :
  load_json path = inr (PDict creds) ->
  client_block creds = Some (PDict entries) ->
  assoc "client_id" entries = Some (PStr cid) ->
  assoc "client_secret" entries = Some secret ->
  run_flow path SCOPES 8080 = inr token ->
  script [prog; path]
  = ((banner :: intro_lines py_str cid (project_of entries)
        ++ success_lines py_str cid
        ++ secret_lines py_str secret token
        ++ setup_lines)%list, inr tt)
  /\ exit_status (script [prog; path]) = 0
  /\ In ("Client ID: " ++ py_str (PStr (substring 0 50 cid)) ++ "...")
        (stdout (script [prog; path]))
  /\ In ("GDRIVE_CLIENT_ID:" ++ nl ++ py_str (PStr cid) ++ nl)
        (stdout (script [prog; path]))
  /\ In ("GDRIVE_CLIENT_SECRET:" ++ nl ++ py_str secret ++ nl)
        (stdout (script [prog; path]))
  /\ In ("GDRIVE_REFRESH_TOKEN:" ++ nl ++ py_str token ++ nl)
        (stdout (script [prog; path])).
Proof.
  intros H Hb Hid Hsecret Hflow.
  rewrite (@run_client_block load_json authorize prog path creds _ H Hb).
  rewrite (authorize_until_flow path entries Hid), Hflow, Hsecret.
  split; [reflexivity|]. split; [reflexivity|].
  cbn [stdout fst].
  split; [right; apply in_or_app; left; left; reflexivity|].
  split; [right; apply in_or_app; right; apply in_or_app; left;
          unfold success_lines; cbn [In]; auto 10|].
  split; right; apply in_or_app; right; apply in_or_app; right;
    apply in_or_app; left; unfold secret_lines; cbn [In]; auto.
Qed.
End AuthorizeProperties.

Lemma missing_client_id_is_uncaught_witness :
  exit_status
    (main (fun _ => inr (PDict [("installed", PDict [("project_id", PStr "p")])]))
          (authorize_and_report str_of_PStr (fun _ _ _ => inr (PStr "token")))
          ["get_gdrive_token.py"; "creds.json"]) = 1.
Proof.
  apply (@missing_client_id_is_uncaught
           (fun _ => inr (PDict [("installed", PDict [("project_id", PStr "p")])]))
           str_of_PStr (fun _ _ _ => inr (PStr "token"))
           "get_gdrive_token.py" "creds.json"
           [("installed", PDict [("project_id", PStr "p")])]
           (PDict [("project_id", PStr "p")]) eq_refl eq_refl).
  intros entries E. injection E as <-. reflexivity.
Defined.

Lemma flow_failure_is_uncaught_witness :
  outcome
    (main (fun _ => inr (PDict [("web", PDict [("client_id", PStr "id")])]))
          (authorize_and_report str_of_PStr (fun _ _ _ => inl (OSError "port 8080 in use")))
          ["get_gdrive_token.py"; "creds.json"]) = inl (OSError "port 8080 in use").
Proof.
  rewrite (@flow_failure_is_uncaught
             (fun _ => inr (PDict [("web", PDict [("client_id", PStr "id")])]))
             str_of_PStr (fun _ _ _ => inl (OSError "port 8080 in use"))
             "get_gdrive_token.py" "creds.json"
             [("web", PDict [("client_id", PStr "id")])]
             [("client_id", PStr "id")] "id" (OSError "port 8080 in use")
             eq_refl eq_refl eq_refl eq_refl).
  reflexivity.
Defined.

Lemma missing_client_secret_loses_token_witness :
  outcome
    (main (fun _ => inr (PDict [("installed", PDict [("client_id", PStr "id")])]))
          (authorize_and_report str_of_PStr (fun _ _ _ => inr (PStr "token")))
          ["get_gdrive_token.py"; "creds.json"]) = inl (KeyError "client_secret").
Proof.
  apply (@missing_client_secret_loses_token
           (fun _ => inr (PDict [("installed", PDict [("client_id", PStr "id")])]))
           str_of_PStr (fun _ _ _ => inr (PStr "token"))
           "get_gdrive_token.py" "creds.json"
           [("installed", PDict [("client_id", PStr "id")])]
           [("client_id", PStr "id")] "id" (PStr "token")
           eq_refl eq_refl eq_refl eq_refl eq_refl).
Defined.

Lemma successful_run_prints_three_secrets_witness :
  exit_status
    (main (fun _ => inr (PDict [("installed",
                                 PDict [("client_id", PStr "id");
                                        ("client_secret", PStr "secret")])]))
          (authorize_and_report str_of_PStr (fun _ _ _ => inr (PStr "token")))
          ["get_gdrive_token.py"; "creds.json"]) = 0.
Proof.
  apply (@successful_run_prints_three_secrets
           (fun _ => inr (PDict [("installed",
                                  PDict [("client_id", PStr "id");
                                         ("client_secret", PStr "secret")])]))
           str_of_PStr (fun _ _ _ => inr (PStr "token"))
           "get_gdrive_token.py" "creds.json"
           [("installed", PDict [("client_id", PStr "id");
                                 ("client_secret", PStr "secret")])]
           [("client_id", PStr "id"); ("client_secret", PStr "secret")]
           "id" (PStr "secret") (PStr "token")
           eq_refl eq_refl eq_refl eq_refl eq_refl).
Defined.
